(** * VtigerApiClient: session handshake, module resolver and request builders

    A shallow embedding of the TypeScript class [VtigerApiClient] and of the
    [VtigerModule] union type of [types/index.ts].

    - JavaScript values are the inductive type [value]; numbers are the
      safe integers ([safe_integer]: magnitude at most 2^53 - 1), which a
      double holds exactly and Number::toString prints digit by digit.
      Fractions, NaN, infinities and larger numbers are not embedded: a
      statement that spells a number out assumes it safe.
    - An [async] method is a computation of the monad [js]: it threads the
      client instance and the list of HTTP requests handed to axios, and it
      ends either normally (the promise resolves) or abruptly (the promise
      rejects).  [await] of a rejected promise is an abrupt completion that
      [try_catch] intercepts, as in the source.
    - axios, the MD5 digest and the wording of engine TypeErrors are outside
      the class: they are section variables. *)

From Stdlib Require Import String Ascii List ZArith Bool Lia DecimalString.
From Stdlib Require Import DecimalPos DecimalZ.
Import ListNotations.
Open Scope string_scope.
Set Warnings "-register-all".

(** ** JavaScript values *)

Inductive value : Type :=
| VUndefined
| VNull
| VBool (b : bool)
| VNum (n : Z)
| VStr (s : string)
| VArr (items : list value)
| VObj (props : list (string * value)).

(** Native [Error] instances ([new Error(m)], engine TypeErrors). *)
Record Error : Type := mkError { name : string; message : string }.

(** What a [throw] or a rejected promise carries. *)
Inductive thrown : Type :=
| ThrownError (e : Error)
| ThrownValue (v : value).

Inductive completion (A : Type) : Type :=
| Normal (a : A)
| Throw (t : thrown).
Arguments Normal {A} a.
Arguments Throw {A} t.

(** Number.isSafeInteger: the integers of magnitude at most 2^53 - 1. *)
Definition safe_integer (n : Z) : bool :=
  (Z.abs n <=? 9007199254740991)%Z.

(** Number::toString on a safe integer: its decimal digits.  Beyond the
    safe integers a double prints the shortest digits that read back to it
    (2^64 prints 18446744073709552000), which this function does not
    give. *)
Definition Number_toString (n : Z) : string :=
  NilZero.string_of_int (Z.to_int n).

(** ToString, as applied by template literals, by [+] with a string operand,
    by [new Error(m)] and by the USVString conversion of
    [URLSearchParams.append]. *)
Fixpoint ToString (v : value) : string :=
  match v with
  | VUndefined => "undefined"
  | VNull => "null"
  | VBool true => "true"
  | VBool false => "false"
  | VNum n => Number_toString n
  | VStr s => s
  | VArr items =>
      String.concat ","
        (map (fun x => match x with
                       | VUndefined | VNull => ""
                       | _ => ToString x
                       end) items)
  | VObj _ => "[object Object]"
  end.

(** ToBoolean: the test of [!x] and of [x || y]. *)
Definition truthy (v : value) : bool :=
  match v with
  | VUndefined | VNull => false
  | VBool b => b
  | VNum n => negb (n =? 0)%Z
  | VStr s => negb (s =? "")
  | VArr _ | VObj _ => true
  end.

(** [x || y] *)
Definition js_or (x y : value) : value := if truthy x then x else y.

(** Own properties of a plain object, in property order. *)
Fixpoint lookup {A : Type} (k : string) (props : list (string * A)) : option A :=
  match props with
  | [] => None
  | (k', x) :: rest => if k' =? k then Some x else lookup k rest
  end.

(** [o[k] = x] on the property list: an existing property keeps its place,
    a new one goes last. *)
Fixpoint assign (k : string) (x : value) (props : list (string * value))
  : list (string * value) :=
  match props with
  | [] => [(k, x)]
  | (k', y) :: rest =>
      if k' =? k then (k', x) :: rest else (k', y) :: assign k x rest
  end.

(** ** JSON.stringify *)

Definition quote : ascii := "034"%char.
Definition backslash : ascii := "092"%char.

Definition hex_digit (n : nat) : ascii :=
  match n with
  | 0 => "0" | 1 => "1" | 2 => "2" | 3 => "3" | 4 => "4" | 5 => "5"
  | 6 => "6" | 7 => "7" | 8 => "8" | 9 => "9" | 10 => "a" | 11 => "b"
  | 12 => "c" | 13 => "d" | 14 => "e" | _ => "f"
  end%char.

Definition escape_char (c : ascii) : string :=
  let n := nat_of_ascii c in
  if (c =? quote)%char then String backslash (String quote "")
  else if (c =? backslash)%char then String backslash (String backslash "")
  else if (n =? 8)%nat then String backslash "b"
  else if (n =? 9)%nat then String backslash "t"
  else if (n =? 10)%nat then String backslash "n"
  else if (n =? 12)%nat then String backslash "f"
  else if (n =? 13)%nat then String backslash "r"
  else if (n <? 32)%nat then
    String backslash
      ("u00" ++ String (hex_digit (n / 16)) (String (hex_digit (n mod 16)) ""))
  else String c "".

Fixpoint escape (s : string) : string :=
  match s with
  | EmptyString => ""
  | String c rest => escape_char c ++ escape rest
  end.

Definition QuoteJSONString (s : string) : string :=
  String quote (escape s ++ String quote "").

(** SerializeJSONProperty: [None] is the [undefined] that JSON.stringify
    gives for [undefined]; such a property is left out of an object and
    printed as null in an array. *)
Fixpoint SerializeJSON (v : value) : option string :=
  match v with
  | VUndefined => None
  | VNull => Some "null"
  | VBool true => Some "true"
  | VBool false => Some "false"
  | VNum n => Some (Number_toString n)
  | VStr s => Some (QuoteJSONString s)
  | VArr items =>
      Some ("[" ++ String.concat ","
                     (map (fun x => match SerializeJSON x with
                                    | Some s => s
                                    | None => "null"
                                    end) items) ++ "]")
  | VObj props =>
      Some ("{" ++ String.concat ","
                     (flat_map (fun p => match SerializeJSON (snd p) with
                                         | Some s => [QuoteJSONString (fst p) ++ ":" ++ s]
                                         | None => []
                                         end) props) ++ "}")
  end.

Definition JSON_stringify (v : value) : value :=
  match SerializeJSON v with
  | Some s => VStr s
  | None => VUndefined
  end.

(** ** types/index.ts *)

(** The members of the union type [VtigerModule], in declaration order. *)
Definition VtigerModule : list string :=
  [ "calendar"; "leads"; "accounts"; "contacts"; "potentials"; "products";
    "documents"; "emails"; "helpdesk"; "faq"; "vendors"; "pricebooks";
    "quotes"; "purchaseorder"; "salesorder"; "invoice"; "campaigns";
    "events"; "users"; "groups"; "currency"; "documentfolders" ].

(** ** Utils: the two module switches *)

(** [switch (x) { case k: return v; ... default: return d; }] on strings:
    the first case that is [===] to the scrutinee returns. *)
Fixpoint switch (x : string) (cases : list (string * value)) (default : value)
  : value :=
  match cases with
  | [] => default
  | (k, v) :: rest => if x =? k then v else switch x rest default
  end.

Definition getModuleId (module : string) : value :=
  switch module
    [ ("calendar", VNum 9); ("leads", VNum 2); ("accounts", VNum 3);
      ("contacts", VNum 4); ("potentials", VNum 5); ("products", VNum 6);
      ("documents", VNum 7); ("emails", VNum 8); ("helpdesk", VNum 9);
      ("faq", VNum 10); ("vendors", VNum 11); ("pricebooks", VNum 12);
      ("quotes", VNum 13); ("purchaseorder", VNum 14); ("salesorder", VNum 15);
      ("invoice", VNum 16); ("campaigns", VNum 17); ("events", VNum 18);
      ("users", VNum 19); ("groups", VNum 20); ("currency", VNum 21);
      ("documentfolders", VNum 22) ]
    VNull.

Definition getModuleName (module : string) : value :=
  switch module
    [ ("calendar", VStr "Calendar"); ("leads", VStr "Leads");
      ("accounts", VStr "Accounts"); ("contacts", VStr "Contacts");
      ("potentials", VStr "Potentials"); ("products", VStr "Products");
      ("documents", VStr "Documents"); ("emails", VStr "Emails");
      ("helpdesk", VStr "HelpDesk"); ("faq", VStr "Faq");
      ("vendors", VStr "Vendors"); ("pricebooks", VStr "PriceBooks");
      ("quotes", VStr "Quotes"); ("purchaseorder", VStr "PurchaseOrder");
      ("salesorder", VStr "SalesOrder"); ("invoice", VStr "Invoice");
      ("campaigns", VStr "Campaigns"); ("events", VStr "Events");
      ("users", VStr "Users"); ("groups", VStr "Groups");
      ("currency", VStr "Currency"); ("documentfolders", VStr "DocumentFolders") ]
    VNull.

(** ** The client instance, the wire and the monad of async methods *)

Record VtigerApiClient : Type := mkClient {
  url : string;
  username : string;
  accessKey : string;
  sessionId : value;
  user : value;
  userId : value;
  webserviceUrl : string
}.

(** What is handed to axios.  A GET carries the [params] object literal as
    written in the source (axios serialises it); a POST carries the pairs of
    the [URLSearchParams] body and the headers of its config. *)
Inductive request : Type :=
| GET (target : string) (params : list (string * value))
| POST (target : string) (body : list (string * string))
       (headers : list (string * string)).

(** The promise axios returns: resolved with a response whose [data] is
    the decoded body, or rejected. *)
Record AxiosResponse : Type := mkResponse { data : value }.

Inductive reply : Type :=
| Response (r : AxiosResponse)
| Failure (error : thrown).

Record world : Type := mkWorld {
  this : VtigerApiClient;
  sent : list request
}.

Definition js (A : Type) : Type := world -> completion A * world.

Definition ret {A : Type} (a : A) : js A := fun w => (Normal a, w).

Definition throw {A : Type} (t : thrown) : js A := fun w => (Throw t, w).

Definition bind {A B : Type} (m : js A) (k : A -> js B) : js B :=
  fun w =>
    match m w with
    | (Normal a, w') => k a w'
    | (Throw t, w') => (Throw t, w')
    end.

Notation "x <- m ;; k" := (bind m (fun x => k))
  (at level 61, m at next level, right associativity).
Notation "m ;;; k" := (bind m (fun _ => k))
  (at level 61, right associativity).

(** [try { body } catch (error) { handler }] *)
Definition try_catch {A : Type} (body : js A) (handler : thrown -> js A) : js A :=
  fun w =>
    match body w with
    | (Normal a, w') => (Normal a, w')
    | (Throw t, w') => handler t w'
    end.

(** [this.f] *)
Definition read {A : Type} (f : VtigerApiClient -> A) : js A :=
  fun w => (Normal (f (this w)), w).

(** [this.sessionId = v], [this.userId = v], [this.user = v] *)
Definition write_sessionId (v : value) : js unit :=
  fun w =>
    let c := this w in
    (Normal tt,
     mkWorld (mkClient (url c) (username c) (accessKey c) v (user c) (userId c)
                       (webserviceUrl c)) (sent w)).

Definition write_userId (v : value) : js unit :=
  fun w =>
    let c := this w in
    (Normal tt,
     mkWorld (mkClient (url c) (username c) (accessKey c) (sessionId c) (user c) v
                       (webserviceUrl c)) (sent w)).

Definition write_user (v : value) : js unit :=
  fun w =>
    let c := this w in
    (Normal tt,
     mkWorld (mkClient (url c) (username c) (accessKey c) (sessionId c) v (userId c)
                       (webserviceUrl c)) (sent w)).

Definition Promise_resolve {A : Type} (a : A) : js A := ret a.
Definition Promise_reject {A : Type} (t : thrown) : js A := throw t.
Definition await {A : Type} (p : js A) : js A := p.

(** [new URLSearchParams()] and [params.append(name, v)]: the value goes
    through the USVString conversion. *)
Definition URLSearchParams : list (string * string) := [].

Definition append (params : list (string * string)) (name0 : string) (v : value)
  : list (string * string) :=
  params ++ [(name0, ToString v)].

Definition form_config : list (string * string) :=
  [("Content-Type", "application/x-www-form-urlencoded")].

(** [new Error(m)] *)
Definition new_Error (m : value) : Error := mkError "Error" (ToString m).

(** The constructor. *)
Definition constructor (url0 username0 accessKey0 : string) : VtigerApiClient :=
  mkClient url0 username0 accessKey0 VNull VNull VNull (url0 ++ "/webservice.php").

Section Client.

(** [md5(s).toString()] of crypto-js: the hexadecimal digest. *)
Variable md5 : string -> string.

(** The message of the TypeError the engine raises for a property access
    on [base] with key [k]; its wording is the engine's. *)
Variable TypeError_message : value -> string -> string.

(** The transport: what axios answers to a request, given the requests it
    was handed before. *)
Variable axios : list request -> request -> reply.

(** [base.k] for the keys this class reads: none of them is a property of
    the String, Number, Boolean or Array prototypes, so only a plain
    object can hold one. *)
Definition Get (base : value) (k : string) : js value :=
  match base with
  | VUndefined | VNull =>
      throw (ThrownError (mkError "TypeError" (TypeError_message base k)))
  | VObj props =>
      ret (match lookup k props with Some x => x | None => VUndefined end)
  | _ => ret VUndefined
  end.

(** [base?.k] *)
Definition Get_optional (base : value) (k : string) : js value :=
  match base with
  | VUndefined | VNull => ret VUndefined
  | _ => Get base k
  end.

(** [base.k = x] in strict code (a class body), giving the object after
    the store.  A primitive base is a TypeError.  On an array the key is
    a named property, which neither ToString nor JSON.stringify
    enumerates: its representation is unchanged. *)
Definition Put (base : value) (k : string) (x : value) : js value :=
  match base with
  | VObj props => ret (VObj (assign k x props))
  | VArr items => ret (VArr items)
  | _ => throw (ThrownError (mkError "TypeError" (TypeError_message base k)))
  end.

Definition send (r : request) : js AxiosResponse :=
  fun w =>
    let w' := mkWorld (this w) (sent w ++ [r]) in
    match axios (sent w) r with
    | Response resp => (Normal resp, w')
    | Failure e => (Throw e, w')
    end.

(** [axios.get(url, { params })] *)
Definition axios_get (target : string) (params : list (string * value))
  : js AxiosResponse :=
  send (GET target params).

(** [axios.post(url, params, config)] *)
Definition axios_post (target : string) (body : list (string * string))
           (config : list (string * string)) : js AxiosResponse :=
  send (POST target body config).

(** *** Session manager *)

Definition getChallenge : js value :=
  try_catch
    (webserviceUrl0 <- read webserviceUrl ;;
     username0 <- read username ;;
     vtigerChallengeResponse <-
       await (axios_get webserviceUrl0
                [("operation", VStr "getchallenge"); ("username", VStr username0)]) ;;
     success <- Get (data vtigerChallengeResponse) "success" ;;
     if negb (truthy success) then
       error <- Get (data vtigerChallengeResponse) "error" ;;
       m <- Get_optional error "message" ;;
       throw (ThrownError
                (new_Error (js_or m (VStr "Operation failed: getchallenge"))))
     else
       Promise_resolve (data vtigerChallengeResponse))
    (fun error => Promise_reject error).

(** [error.message || error] *)
Definition message_or_error (error : thrown) : js thrown :=
  match error with
  | ThrownError e =>
      ret (if truthy (VStr (message e)) then ThrownValue (VStr (message e))
           else error)
  | ThrownValue v =>
      m <- Get v "message" ;;
      ret (if truthy m then ThrownValue m else error)
  end.

(** [console.log] only writes to the console and is left out. *)
Definition login : js value :=
  try_catch
    (challengeResponse <- await getChallenge ;;
     result <- Get challengeResponse "result" ;;
     challengeToken <- Get result "token" ;;
     accessKey0 <- read accessKey ;;
     let hash := md5 (ToString challengeToken ++ accessKey0) in
     let vtigerLoginParams := URLSearchParams in
     let vtigerLoginParams := append vtigerLoginParams "operation" (VStr "login") in
     username0 <- read username ;;
     let vtigerLoginParams := append vtigerLoginParams "username" (VStr username0) in
     let vtigerLoginParams := append vtigerLoginParams "accessKey" (VStr hash) in
     let vtigerLoginConfig := form_config in
     webserviceUrl0 <- read webserviceUrl ;;
     vtigerLoginResponse <-
       await (axios_post webserviceUrl0 vtigerLoginParams vtigerLoginConfig) ;;
     result1 <- Get (data vtigerLoginResponse) "result" ;;
     sessionName <- Get result1 "sessionName" ;;
     write_sessionId sessionName ;;;
     result2 <- Get (data vtigerLoginResponse) "result" ;;
     userId0 <- Get result2 "userId" ;;
     write_userId userId0 ;;;
     result3 <- Get (data vtigerLoginResponse) "result" ;;
     write_user result3 ;;;
     Promise_resolve (data vtigerLoginResponse))
    (fun error =>
       reason <- message_or_error error ;;
       Promise_reject reason).

Definition logout : js value :=
  try_catch
    (let params := URLSearchParams in
     let params := append params "operation" (VStr "logout") in
     sessionId0 <- read sessionId ;;
     let params := append params "sessionName" sessionId0 in
     let config := form_config in
     webserviceUrl0 <- read webserviceUrl ;;
     response <- await (axios_post webserviceUrl0 params config) ;;
     Promise_resolve (data response))
    (fun error => Promise_reject error).

(** *** Operation dispatcher

    [create] and [update] store into the record they are given.  As
    written first, they take a record of the caller's own, by value, and
    continue with the record after the store; [create_at] and [update_at]
    below are the same methods with the place of the store made explicit,
    for the call on the object that the client itself holds in [user]. *)

Definition create (module : string) (data0 : value) : js value :=
  try_catch
    (let moduleName := getModuleName module in
     assigned_user_id <- Get data0 "assigned_user_id" ;;
     userId0 <- read userId ;;
     data1 <- Put data0 "assigned_user_id" (js_or assigned_user_id userId0) ;;
     let params := URLSearchParams in
     let params := append params "operation" (VStr "create") in
     sessionId0 <- read sessionId ;;
     let params := append params "sessionName" sessionId0 in
     let params := append params "element" (JSON_stringify data1) in
     let params := append params "elementType" moduleName in
     let config := form_config in
     webserviceUrl0 <- read webserviceUrl ;;
     response <- await (axios_post webserviceUrl0 params config) ;;
     Promise_resolve (data response))
    (fun error => Promise_reject error).

Definition retrieve (module : string) (recordId : Z) : js value :=
  try_catch
    (let moduleId := getModuleId module in
     webserviceUrl0 <- read webserviceUrl ;;
     sessionId0 <- read sessionId ;;
     response <-
       await (axios_get webserviceUrl0
                [("operation", VStr "retrieve");
                 ("sessionName", sessionId0);
                 ("id", VStr (ToString moduleId ++ "x" ++ ToString (VNum recordId)))]) ;;
     Promise_resolve (data response))
    (fun error => Promise_reject error).

Definition update (module : string) (recordId : Z) (data0 : value) : js value :=
  try_catch
    (let moduleId := getModuleId module in
     data1 <- Put data0 "id"
                (VStr (ToString moduleId ++ "x" ++ ToString (VNum recordId))) ;;
     let params := URLSearchParams in
     let params := append params "operation" (VStr "update") in
     sessionId0 <- read sessionId ;;
     let params := append params "sessionName" sessionId0 in
     let params := append params "element" (JSON_stringify data1) in
     let config := form_config in
     webserviceUrl0 <- read webserviceUrl ;;
     response <- await (axios_post webserviceUrl0 params config) ;;
     Promise_resolve (data response))
    (fun error => Promise_reject error).

(** [create] and [update] on a record that may be shared.  [record] reads
    the argument and [store] is where the assignment of line 133 (of
    line 205) lands: nowhere the client can see for a record of the
    caller's own, in [this.user] when the caller hands in the object that
    the client holds there. *)
Definition create_at (record : js value) (store : value -> js unit)
           (module : string) : js value :=
  try_catch
    (data0 <- record ;;
     let moduleName := getModuleName module in
     assigned_user_id <- Get data0 "assigned_user_id" ;;
     userId0 <- read userId ;;
     data1 <- Put data0 "assigned_user_id" (js_or assigned_user_id userId0) ;;
     store data1 ;;;
     let params := URLSearchParams in
     let params := append params "operation" (VStr "create") in
     sessionId0 <- read sessionId ;;
     let params := append params "sessionName" sessionId0 in
     let params := append params "element" (JSON_stringify data1) in
     let params := append params "elementType" moduleName in
     let config := form_config in
     webserviceUrl0 <- read webserviceUrl ;;
     response <- await (axios_post webserviceUrl0 params config) ;;
     Promise_resolve (data response))
    (fun error => Promise_reject error).

Definition update_at (record : js value) (store : value -> js unit)
           (module : string) (recordId : Z) : js value :=
  try_catch
    (data0 <- record ;;
     let moduleId := getModuleId module in
     data1 <- Put data0 "id"
                (VStr (ToString moduleId ++ "x" ++ ToString (VNum recordId))) ;;
     store data1 ;;;
     let params := URLSearchParams in
     let params := append params "operation" (VStr "update") in
     sessionId0 <- read sessionId ;;
     let params := append params "sessionName" sessionId0 in
     let params := append params "element" (JSON_stringify data1) in
     let config := form_config in
     webserviceUrl0 <- read webserviceUrl ;;
     response <- await (axios_post webserviceUrl0 params config) ;;
     Promise_resolve (data response))
    (fun error => Promise_reject error).

(** [c.create(module, c.user)] and [c.update(module, recordId, c.user)]:
    the record is the very object held in [this.user] (the [result] of the
    login reply), so the method's assignment changes the client. *)
Definition create_user (module : string) : js value :=
  create_at (read user) write_user module.

Definition update_user (module : string) (recordId : Z) : js value :=
  update_at (read user) write_user module recordId.

Definition delete (module : string) (recordId : Z) : js value :=
  try_catch
    (let moduleId := getModuleId module in
     let params := URLSearchParams in
     let params := append params "operation" (VStr "delete") in
     sessionId0 <- read sessionId ;;
     let params := append params "sessionName" sessionId0 in
     let params :=
       append params "id"
         (VStr (ToString moduleId ++ "x" ++ ToString (VNum recordId))) in
     let config := form_config in
     webserviceUrl0 <- read webserviceUrl ;;
     response <- await (axios_post webserviceUrl0 params config) ;;
     Promise_resolve (data response))
    (fun error => Promise_reject error).

Definition query (query0 : string) : js value :=
  try_catch
    (webserviceUrl0 <- read webserviceUrl ;;
     sessionId0 <- read sessionId ;;
     response <-
       await (axios_get webserviceUrl0
                [("operation", VStr "query");
                 ("sessionName", sessionId0);
                 ("query", VStr query0)]) ;;
     Promise_resolve (data response))
    (fun error => Promise_reject error).

Definition listTypes : js value :=
  try_catch
    (webserviceUrl0 <- read webserviceUrl ;;
     sessionId0 <- read sessionId ;;
     response <-
       await (axios_get webserviceUrl0
                [("operation", VStr "listtypes");
                 ("sessionName", sessionId0)]) ;;
     Promise_resolve (data response))
    (fun error => Promise_reject error).

Definition describe (module : string) : js value :=
  try_catch
    (let moduleName := getModuleName module in
     webserviceUrl0 <- read webserviceUrl ;;
     sessionId0 <- read sessionId ;;
     response <-
       await (axios_get webserviceUrl0
                [("operation", VStr "describe");
                 ("sessionName", sessionId0);
                 ("elementType", moduleName)]) ;;
     Promise_resolve (data response))
    (fun error => Promise_reject error).

Definition retrieveRelated (module : string) (recordId : Z)
           (relatedModule : string) (relatedLabel : string) : js value :=
  try_catch
    (let moduleId := getModuleId module in
     let relateModuleName := getModuleName relatedModule in
     webserviceUrl0 <- read webserviceUrl ;;
     sessionId0 <- read sessionId ;;
     response <-
       await (axios_get webserviceUrl0
                [("operation", VStr "retrieve_related");
                 ("sessionName", sessionId0);
                 ("id", VStr (ToString moduleId ++ "x" ++ ToString (VNum recordId)));
                 ("relatedLabel", VStr relatedLabel);
                 ("relatedType", relateModuleName)]) ;;
     Promise_resolve (data response))
    (fun error => Promise_reject error).

Definition relatedTypes (module : string) : js value :=
  try_catch
    (let moduleName := getModuleName module in
     webserviceUrl0 <- read webserviceUrl ;;
     sessionId0 <- read sessionId ;;
     response <-
       await (axios_get webserviceUrl0
                [("operation", VStr "relatedtypes");
                 ("sessionName", sessionId0);
                 ("elementType", moduleName)]) ;;
     Promise_resolve (data response))
    (fun error => Promise_reject error).

Definition queryRelated (module : string) (recordId : Z)
           (relatedLabel : string) : js value :=
  try_catch
    (let moduleId := getModuleId module in
     let moduleName := getModuleName module in
     webserviceUrl0 <- read webserviceUrl ;;
     sessionId0 <- read sessionId ;;
     response <-
       await (axios_get webserviceUrl0
                [("operation", VStr "query_related");
                 ("sessionName", sessionId0);
                 ("query", VStr ("SELECT * FROM " ++ ToString moduleName));
                 ("id", VStr (ToString moduleId ++ "x" ++ ToString (VNum recordId)));
                 ("relatedLabel", VStr relatedLabel)]) ;;
     Promise_resolve (data response))
    (fun error => Promise_reject error).

Definition deleteRelated (sourceModule : string) (sourceRecordId : Z)
           (relatedModule : string) (relatedRecordId : Z) : js value :=
  try_catch
    (let sourceModuleId := getModuleId sourceModule in
     let relatedModuleId := getModuleId relatedModule in
     let params := URLSearchParams in
     let params := append params "operation" (VStr "delete_related") in
     sessionId0 <- read sessionId ;;
     let params := append params "sessionName" sessionId0 in
     let params :=
       append params "sourceRecordId"
         (VStr (ToString sourceModuleId ++ "x" ++ ToString (VNum sourceRecordId))) in
     let params :=
       append params "relatedRecordId"
         (VStr (ToString relatedModuleId ++ "x" ++ ToString (VNum relatedRecordId))) in
     let config := form_config in
     webserviceUrl0 <- read webserviceUrl ;;
     response <- await (axios_post webserviceUrl0 params config) ;;
     Promise_resolve (data response))
    (fun error => Promise_reject error).

Definition addRelated (sourceModule : string) (sourceRecordId : Z)
           (relatedModule : string) (relatedRecordId : Z)
           (relationIdLabel : string) : js value :=
  try_catch
    (let sourceModuleId := getModuleId sourceModule in
     let relatedModuleId := getModuleId relatedModule in
     let params := URLSearchParams in
     let params := append params "operation" (VStr "add_related") in
     sessionId0 <- read sessionId ;;
     let params := append params "sessionName" sessionId0 in
     let params :=
       append params "sourceRecordId"
         (VStr (ToString sourceModuleId ++ "x" ++ ToString (VNum sourceRecordId))) in
     let params :=
       append params "relatedRecordId"
         (VStr (ToString relatedModuleId ++ "x" ++ ToString (VNum relatedRecordId))) in
     let params := append params "relationIdLabel" (VStr relationIdLabel) in
     let config := form_config in
     webserviceUrl0 <- read webserviceUrl ;;
     response <- await (axios_post webserviceUrl0 params config) ;;
     Promise_resolve (data response))
    (fun error => Promise_reject error).

(** *** The public operations of the dispatcher, as one enumeration

    [data] of [Create] and [Update] is the property list of the record
    object the caller passes, an object of the caller's own. *)
Inductive call : Type :=
| Create (module : string) (fields : list (string * value))
| Retrieve (module : string) (recordId : Z)
| Update (module : string) (recordId : Z) (fields : list (string * value))
| Delete (module : string) (recordId : Z)
| Query (query0 : string)
| ListTypes
| Describe (module : string)
| RetrieveRelated (module : string) (recordId : Z) (relatedModule relatedLabel : string)
| RelatedTypes (module : string)
| QueryRelated (module : string) (recordId : Z) (relatedLabel : string)
| DeleteRelated (sourceModule : string) (sourceRecordId : Z)
                (relatedModule : string) (relatedRecordId : Z)
| AddRelated (sourceModule : string) (sourceRecordId : Z)
             (relatedModule : string) (relatedRecordId : Z)
             (relationIdLabel : string).

Definition dispatch (c : call) : js value :=
  match c with
  | Create m fields => create m (VObj fields)
  | Retrieve m n => retrieve m n
  | Update m n fields => update m n (VObj fields)
  | Delete m n => delete m n
  | Query q => query q
  | ListTypes => listTypes
  | Describe m => describe m
  | RetrieveRelated m n rm rl => retrieveRelated m n rm rl
  | RelatedTypes m => relatedTypes m
  | QueryRelated m n rl => queryRelated m n rl
  | DeleteRelated sm sn rm rn => deleteRelated sm sn rm rn
  | AddRelated sm sn rm rn l => addRelated sm sn rm rn l
  end.

End Client.

(** The module arguments of a call. *)
Definition modules_of (c : call) : list string :=
  match c with
  | Create m _ | Retrieve m _ | Update m _ _ | Delete m _ | Describe m
  | RelatedTypes m | QueryRelated m _ _ => [m]
  | RetrieveRelated m _ rm _ | DeleteRelated m _ rm _ | AddRelated m _ rm _ _ => [m; rm]
  | Query _ | ListTypes => []
  end.

(** The record numbers of a call. *)
Definition numbers_of (c : call) : list Z :=
  match c with
  | Retrieve _ n | Update _ n _ | Delete _ n | RetrieveRelated _ n _ _
  | QueryRelated _ n _ => [n]
  | DeleteRelated _ n _ k | AddRelated _ n _ k _ => [n; k]
  | Create _ _ | Query _ | ListTypes | Describe _ | RelatedTypes _ => []
  end.

(** ** Specification side *)

(** The table of section 4.2 of the specification: key, numeric id,
    display name (left column, then right column). *)
Definition module_table : list (string * (Z * string)) :=
  [ ("calendar", (9, "Calendar")); ("leads", (2, "Leads"));
    ("accounts", (3, "Accounts")); ("contacts", (4, "Contacts"));
    ("potentials", (5, "Potentials")); ("products", (6, "Products"));
    ("documents", (7, "Documents")); ("emails", (8, "Emails"));
    ("helpdesk", (9, "HelpDesk")); ("faq", (10, "Faq"));
    ("vendors", (11, "Vendors")); ("pricebooks", (12, "PriceBooks"));
    ("quotes", (13, "Quotes")); ("purchaseorder", (14, "PurchaseOrder"));
    ("salesorder", (15, "SalesOrder")); ("invoice", (16, "Invoice"));
    ("campaigns", (17, "Campaigns")); ("events", (18, "Events"));
    ("users", (19, "Users")); ("groups", (20, "Groups"));
    ("currency", (21, "Currency")); ("documentfolders", (22, "DocumentFolders")) ]%Z.

(** The record reference of the specification: [{moduleId}x{recordNumber}]. *)
Definition RecordRef (moduleId recordNumber : Z) : string :=
  Number_toString moduleId ++ "x" ++ Number_toString recordNumber.

(** The module resolver as the table gives it, null off the table. *)
Definition table_id (key : string) : value :=
  match lookup key module_table with
  | Some (id, _) => VNum id
  | None => VNull
  end.

Definition table_name (key : string) : value :=
  match lookup key module_table with
  | Some (_, display) => VStr display
  | None => VNull
  end.

(** The value of property [k] of [v], [undefined] where there is none. *)
Definition field (v : value) (k : string) : value :=
  match v with
  | VObj props => match lookup k props with Some x => x | None => VUndefined end
  | _ => VUndefined
  end.

(** How the promise of a single request settles the caller's promise. *)
Definition settle (r : reply) : completion value :=
  match r with
  | Response resp => Normal (data resp)
  | Failure e => Throw e
  end.

(** The record object [create] serialises: [assigned_user_id] defaults to
    the client's [userId] when it is missing or falsy. *)
Definition with_assignee (self : VtigerApiClient) (fields : list (string * value))
  : list (string * value) :=
  assign "assigned_user_id"
    (js_or (field (VObj fields) "assigned_user_id") (userId self)) fields.

(** The request of each operation in closed form, laid out as the table of
    section 4.3, over a resolver for module ids and one for module names. *)
Definition request_with (moduleId moduleName : string -> value)
           (self : VtigerApiClient) (c : call) : request :=
  let ref m n := VStr (ToString (moduleId m) ++ "x" ++ ToString (VNum n)) in
  let get params :=
    GET (webserviceUrl self) (("sessionName", sessionId self) :: params) in
  let post params :=
    POST (webserviceUrl self)
         (("sessionName", ToString (sessionId self))
            :: map (fun p => (fst p, ToString (snd p))) params)
         form_config in
  let op (name0 : string) (r : request) :=
    match r with
    | GET t ps => GET t (("operation", VStr name0) :: ps)
    | POST t b h => POST t (("operation", name0) :: b) h
    end in
  match c with
  | Create m fields =>
      op "create" (post [("element", JSON_stringify (VObj (with_assignee self fields)));
                         ("elementType", moduleName m)])
  | Retrieve m n => op "retrieve" (get [("id", ref m n)])
  | Update m n fields =>
      op "update" (post [("element", JSON_stringify (VObj (assign "id" (ref m n) fields)))])
  | Delete m n => op "delete" (post [("id", ref m n)])
  | Query q => op "query" (get [("query", VStr q)])
  | ListTypes => op "listtypes" (get [])
  | Describe m => op "describe" (get [("elementType", moduleName m)])
  | RetrieveRelated m n rm rl =>
      op "retrieve_related"
         (get [("id", ref m n); ("relatedLabel", VStr rl); ("relatedType", moduleName rm)])
  | RelatedTypes m => op "relatedtypes" (get [("elementType", moduleName m)])
  | QueryRelated m n rl =>
      op "query_related"
         (get [("query", VStr ("SELECT * FROM " ++ ToString (moduleName m)));
               ("id", ref m n); ("relatedLabel", VStr rl)])
  | DeleteRelated sm sn rm rn =>
      op "delete_related" (post [("sourceRecordId", ref sm sn); ("relatedRecordId", ref rm rn)])
  | AddRelated sm sn rm rn l =>
      op "add_related"
         (post [("sourceRecordId", ref sm sn); ("relatedRecordId", ref rm rn);
                ("relationIdLabel", VStr l)])
  end.

(** With the two switches of the class as resolvers. *)
Definition request_of : VtigerApiClient -> call -> request :=
  request_with getModuleId getModuleName.

(** The first request of the handshake. *)
Definition challenge_request (self : VtigerApiClient) : request :=
  GET (webserviceUrl self)
      [("operation", VStr "getchallenge"); ("username", VStr (username self))].

(** The parameter values of a request, as strings. *)
Definition wire_values (r : request) : list string :=
  match r with
  | GET _ params => map (fun p => ToString (snd p)) params
  | POST _ body _ => map snd body
  end.

Definition is_nullish (v : value) : bool :=
  match v with
  | VUndefined | VNull => true
  | _ => false
  end.

(** What [login] rejects with when the challenge is refused with message
    [m]: the text of the Error that [getChallenge] throws, or that Error
    itself when its text is empty. *)
Definition challenge_rejection (m : value) : thrown :=
  let text := ToString (js_or m (VStr "Operation failed: getchallenge")) in
  if text =? "" then ThrownError (mkError "Error" text)
  else ThrownValue (VStr text).

(** ** Concrete collaborators for closed examples *)

(** A stand-in for the digest: closed examples only need some function. *)
Definition digest_stub (s : string) : string := "md5(" ++ s ++ ")".

(** The wording V8 uses for a read through [undefined] or [null]. *)
Definition v8_message (base : value) (k : string) : string :=
  "Cannot read properties of " ++ ToString base ++ " (reading '" ++ k ++ "')".

(** The parameter [k] of a request as the remote reads it. *)
Definition param (r : request) (k : string) : string :=
  match r with
  | GET _ params =>
      match lookup k params with
      | Some VUndefined | Some VNull | None => ""
      | Some v => ToString v
      end
  | POST _ body _ => match lookup k body with Some s => s | None => "" end
  end.

Definition invalid_session : value :=
  VObj [("success", VBool false);
        ("error", VObj [("code", VStr "INVALID_SESSIONID");
                        ("message", VStr "Session Identifier provided is Invalid")])].

Definition accepted : value :=
  VObj [("success", VBool true); ("result", VObj [])].

(** A remote that issues the token [5f3a9c], opens the session [6c1d07] for
    user [19x1], serves that session and turns every other request down. *)
Definition vtiger_stub (_ : list request) (r : request) : reply :=
  if param r "operation" =? "getchallenge" then
    Response (mkResponse
      (VObj [("success", VBool true);
             ("result", VObj [("token", VStr "5f3a9c"); ("serverTime", VNum 1700000000);
                              ("expireTime", VNum 1700000300)])]))
  else if param r "operation" =? "login" then
    Response (mkResponse
      (VObj [("success", VBool true);
             ("result", VObj [("sessionName", VStr "6c1d07"); ("userId", VStr "19x1");
                              ("version", VStr "0.22")])]))
  else if param r "sessionName" =? "6c1d07" then Response (mkResponse accepted)
  else Response (mkResponse invalid_session).

(** A remote that refuses the challenge. *)
Definition refusing_stub (_ : list request) (_ : request) : reply :=
  Response (mkResponse
    (VObj [("success", VBool false);
           ("error", VObj [("code", VStr "ACCESS_DENIED");
                           ("message", VStr "Permission to perform the operation is denied")])])).

(** A remote that grants the challenge and refuses the credentials. *)
Definition denying_stub (_ : list request) (r : request) : reply :=
  if param r "operation" =? "getchallenge" then
    Response (mkResponse
      (VObj [("success", VBool true);
             ("result", VObj [("token", VStr "5f3a9c")])]))
  else
    Response (mkResponse
      (VObj [("success", VBool false);
             ("error", VObj [("code", VStr "INVALID_USER_CREDENTIALS");
                             ("message", VStr "Invalid username or password")])])).

(** A transport that serves the challenge and then loses the connection. *)
Definition dropping_stub (history : list request) (r : request) : reply :=
  match history with
  | [] => denying_stub history r
  | _ => Failure (ThrownError (mkError "AxiosError" "socket hang up"))
  end.



(** A remote that answers success and nothing else. *)
Definition bare_stub (_ : list request) (_ : request) : reply :=
  Response (mkResponse (VObj [("success", VBool true)])).

(** A transport without network. *)
Definition offline_stub (_ : list request) (_ : request) : reply :=
  Failure (ThrownError (mkError "AxiosError" "Network Error")).

Definition endpoint : string := "https://crm.example.com/webservice.php".

Definition fresh : world :=
  mkWorld (constructor "https://crm.example.com" "admin" "s3cr3t") [].

Definition logged_in : world :=
  mkWorld (mkClient "https://crm.example.com" "admin" "s3cr3t"
             (VStr "6c1d07")
             (VObj [("sessionName", VStr "6c1d07"); ("userId", VStr "19x1");
                    ("version", VStr "0.22")])
             (VStr "19x1") "https://crm.example.com/webservice.php") [].

(** ** Statements of the specification that the code does not meet, as predicates *)

Definition posted_element (r : request) : option string :=
  match r with
  | GET _ _ => None
  | POST _ body _ => lookup "element" body
  end.

(** [create] as the specification words it: a record without
    [assigned_user_id] is posted with the client's [userId], a record that
    has the entry is posted as it came. *)
Definition posts_assignee_as_given (TypeError_message : value -> string -> string)
           (axios : list request -> request -> reply)
           (module : string) (fields : list (string * value)) (w : world) : Prop :=
  let expected :=
    match lookup "assigned_user_id" fields with
    | Some _ => fields
    | None => assign "assigned_user_id" (userId (this w)) fields
    end in
  exists r,
    sent (snd (create TypeError_message axios module (VObj fields) w)) = (sent w ++ [r])%list /\
    posted_element r = Some (ToString (JSON_stringify (VObj expected))).

(** Fail fast: the call is rejected and nothing was handed to axios. *)
Definition fails_before_sending (TypeError_message : value -> string -> string)
           (axios : list request -> request -> reply) (c : call) (w : world) : Prop :=
  exists e,
    fst (dispatch TypeError_message axios c w) = Throw e /\
    sent (snd (dispatch TypeError_message axios c w)) = sent w.

(** The request carries no session token: the parameter is missing, or it
    is [undefined], [null] or the empty string. *)
Definition sessionName_empty_or_absent (r : request) : bool :=
  match r with
  | GET _ params =>
      match lookup "sessionName" params with
      | None => true
      | Some VUndefined | Some VNull => true
      | Some (VStr s) => s =? ""
      | Some _ => false
      end
  | POST _ body _ =>
      match lookup "sessionName" body with
      | None => true
      | Some s => s =? ""
      end
  end.

Definition sends_without_session (TypeError_message : value -> string -> string)
           (axios : list request -> request -> reply) (c : call) (w : world) : Prop :=
  exists r,
    sent (snd (dispatch TypeError_message axios c w)) = (sent w ++ [r])%list /\
    sessionName_empty_or_absent r = true.

(** ** Sequences of calls on one client *)

(** The public methods of the class.  [Operation] is a dispatcher call on a
    record object; [CreateAny] and [UpdateAny] are [create] and [update]
    with any value of the caller's own as [data], as the parameter type
    [any] allows; [CreateUser] and [UpdateUser] are [create] and [update]
    on the object that the client holds in [user]. *)
Inductive method : Type :=
| Login
| Logout
| CreateAny (module : string) (data0 : value)
| UpdateAny (module : string) (recordId : Z) (data0 : value)
| Operation (c : call)
| CreateUser (module : string)
| UpdateUser (module : string) (recordId : Z).

Definition invoke (md5 : string -> string)
           (TypeError_message : value -> string -> string)
           (axios : list request -> request -> reply) (m : method) : js value :=
  match m with
  | Login => login md5 TypeError_message axios
  | Logout => logout axios
  | CreateAny module data0 => create TypeError_message axios module data0
  | UpdateAny module recordId data0 => update TypeError_message axios module recordId data0
  | Operation c => dispatch TypeError_message axios c
  | CreateUser module => create_user TypeError_message axios module
  | UpdateUser module recordId => update_user TypeError_message axios module recordId
  end.

(** A caller that awaits one method after the other and goes on whether a
    call resolves or rejects. *)
Fixpoint run (md5 : string -> string)
         (TypeError_message : value -> string -> string)
         (axios : list request -> request -> reply)
         (ms : list method) (w : world) : world :=
  match ms with
  | [] => w
  | m :: rest =>
      run md5 TypeError_message axios rest
          (snd (invoke md5 TypeError_message axios m w))
  end.

Definition is_login (m : method) : bool :=
  match m with
  | Login => true
  | _ => false
  end.

Definition shares_user (m : method) : bool :=
  match m with
  | CreateUser _ | UpdateUser _ _ => true
  | _ => false
  end.

(** The URL a request goes to. *)
Definition target_of (r : request) : string :=
  match r with
  | GET t _ => t
  | POST t _ _ => t
  end.

(** The configuration of a client: what the constructor receives and the
    endpoint it derives. *)
Definition same_config (a b : VtigerApiClient) : Prop :=
  url a = url b /\ username a = username b /\ accessKey a = accessKey b /\
  webserviceUrl a = webserviceUrl b.

(** A transport whose answer does not depend on earlier requests. *)
Definition stateless (axios : list request -> request -> reply) : Prop :=
  forall h1 h2 r, axios h1 r = axios h2 r.

(** ** The handshake in closed form *)

(** What the catch clause of [login] rejects with: [error.message || error]. *)
Definition caught (TypeError_message : value -> string -> string) (t : thrown)
  : thrown :=
  match t with
  | ThrownError e =>
      if truthy (VStr (message e)) then ThrownValue (VStr (message e)) else t
  | ThrownValue v =>
      if is_nullish v
      then ThrownError (mkError "TypeError" (TypeError_message v "message"))
      else if truthy (field v "message") then ThrownValue (field v "message")
           else t
  end.

(** The TypeError of reading [k] through [base]. *)
Definition TypeError_of (TypeError_message : value -> string -> string)
           (base : value) (k : string) : thrown :=
  ThrownError (mkError "TypeError" (TypeError_message base k)).

(** The second request of the handshake, for the challenge body [d]. *)
Definition login_request (md5 : string -> string) (self : VtigerApiClient)
           (d : value) : request :=
  POST (webserviceUrl self)
       [("operation", "login");
        ("username", username self);
        ("accessKey",
         md5 (ToString (field (field d "result") "token") ++ accessKey self))]
       form_config.

(** The client after a login that resolved with body [d2]. *)
Definition logged_in_as (self : VtigerApiClient) (d2 : value) : VtigerApiClient :=
  mkClient (url self) (username self) (accessKey self)
           (field (field d2 "result") "sessionName")
           (field d2 "result")
           (field (field d2 "result") "userId")
           (webserviceUrl self).



(** What a single method call may do to the world: it appends at most two
    requests, all to the client's endpoint, and keeps the configuration;
    it writes sessionId and userId only when it is a [login] that
    resolves, and [user] only then or when it is handed the client's own
    [user] object. *)
Definition framed (m : method) (w : world) (c : completion value) (w' : world)
  : Prop :=
  same_config (this w') (this w) /\
  (exists new,
      sent w' = (sent w ++ new)%list /\ length new <= 2 /\
      Forall (fun r => target_of r = webserviceUrl (this w)) new) /\
  match m, c with
  | Login, Normal v => this w' = logged_in_as (this w) v
  | CreateUser _, _ | UpdateUser _ _, _ =>
      sessionId (this w') = sessionId (this w) /\
      userId (this w') = userId (this w)
  | _, _ => this w' = this w
  end.

(** ** Module names and keys *)

Definition lower (c : ascii) : ascii :=
  let n := nat_of_ascii c in
  if ((65 <=? n) && (n <=? 90))%nat then ascii_of_nat (n + 32) else c.

(** String.prototype.toLowerCase on ASCII text. *)
Fixpoint toLowerCase (s : string) : string :=
  match s with
  | EmptyString => EmptyString
  | String c rest => String (lower c) (toLowerCase rest)
  end.

(** ** Record references on the wire *)

(** Whether the letter x occurs in a string. *)
Fixpoint has_x (s : string) : bool :=
  match s with
  | EmptyString => false
  | String c rest => (c =? "x")%char || has_x rest
  end.

(** Values that are neither objects nor arrays. *)
Definition is_primitive (v : value) : bool :=
  match v with
  | VObj _ | VArr _ => false
  | _ => true
  end.

(** ** Basic facts *)

Lemma lookup_assign_same (k : string) (x : value) (props : list (string * value)) :
  lookup k (assign k x props) = Some x.
Proof.
  induction props as [|[k' y] rest IH]; simpl.
  - now rewrite String.eqb_refl.
  - destruct (k' =? k) eqn:E; simpl; rewrite E; auto.
Qed.

Lemma assign_current (k : string) (x : value) (props : list (string * value)) :
  lookup k props = Some x -> assign k x props = props.
Proof.
  induction props as [|[k' y] rest IH]; simpl; [discriminate|].
  destruct (k' =? k) eqn:E; intros H.
  - now inversion H.
  - now rewrite IH.
Qed.

Lemma lookup_assign_other (k k' : string) (x : value) (props : list (string * value)) :
  k' <> k -> lookup k' (assign k x props) = lookup k' props.
Proof.
  intros Hne. induction props as [|[k0 y] rest IH]; simpl.
  - apply String.eqb_neq in Hne. rewrite String.eqb_sym. now rewrite Hne.
  - destruct (k0 =? k) eqn:E; simpl.
    + apply String.eqb_eq in E. subst k0.
      assert (F : (k =? k') = false) by (apply String.eqb_neq; congruence).
      now rewrite F.
    + now rewrite IH.
Qed.

Lemma assign_keys (k : string) (x : value) (props : list (string * value)) :
  map fst (assign k x props) =
    match lookup k props with
    | Some _ => map fst props
    | None => (map fst props ++ [k])%list
    end.
Proof.
  induction props as [|[k0 y] rest IH]; simpl; [reflexivity|].
  destruct (k0 =? k) eqn:E; simpl; [reflexivity|].
  rewrite IH. now destruct (lookup k rest).
Qed.

(** Unfolding a method down to the monad's functions, keeping the resolvers
    and the string conversions folded. *)
Ltac simpl_keep :=
  cbn -[getModuleId getModuleName JSON_stringify String.eqb String.append].

Ltac run_method :=
  unfold dispatch, create, retrieve, update, delete, query, listTypes, describe,
    retrieveRelated, relatedTypes, queryRelated, deleteRelated, addRelated,
    logout, login, getChallenge, message_or_error;
  unfold try_catch, bind, read, axios_get, axios_post, send, await,
    write_sessionId, write_userId, write_user,
    Promise_resolve, Promise_reject, Get_optional, Get, Put, ret, throw,
    append, URLSearchParams;
  simpl_keep.

Section Runs.

Variable TypeError_message : value -> string -> string.
Variable axios : list request -> request -> reply.

(** Every dispatcher operation hands exactly one request to axios and
    settles as that request does; the client instance is not written. *)
Lemma dispatch_run (c : call) (w : world) :
  dispatch TypeError_message axios c w =
    (settle (axios (sent w) (request_of (this w) c)),
     mkWorld (this w) (sent w ++ [request_of (this w) c])).
Proof.
  destruct c; run_method;
    unfold request_of, request_with, with_assignee, field; simpl_keep;
    match goal with
    | |- context [axios ?h ?r] => destruct (axios h r)
    end; reflexivity.
Qed.

End Runs.

(** ** The module resolver *)

Lemma switch_lookup {A : Type} (f : A -> value) (x : string)
      (table : list (string * A)) (default : value) :
  switch x (map (fun p => (fst p, f (snd p))) table) default =
    match lookup x table with Some a => f a | None => default end.
Proof.
  induction table as [|[k a] rest IH]; simpl; [reflexivity|].
  rewrite (String.eqb_sym k x). destruct (x =? k); auto.
Qed.

Lemma getModuleId_table (key : string) :
  getModuleId key =
    match lookup key module_table with Some p => VNum (fst p) | None => VNull end.
Proof. exact (switch_lookup (fun p => VNum (fst p)) key module_table VNull). Qed.

Lemma getModuleName_table (key : string) :
  getModuleName key =
    match lookup key module_table with Some p => VStr (snd p) | None => VNull end.
Proof. exact (switch_lookup (fun p => VStr (snd p)) key module_table VNull). Qed.

Lemma lookup_None_iff {A : Type} (k : string) (table : list (string * A)) :
  lookup k table = None <-> ~ In k (map fst table).
Proof.
  induction table as [|[k' a] rest IH]; simpl.
  - tauto.
  - destruct (k' =? k) eqn:E.
    + apply String.eqb_eq in E. split; [discriminate | tauto].
    + apply String.eqb_neq in E. rewrite IH. tauto.
Qed.

(** C2.  The keys of the table of section 4.2 are the 22 members of
    [VtigerModule]; on each of them [getModuleId] and [getModuleName] return
    the id and the name of the table, on every other key both return null;
    "calendar" and "helpdesk" both resolve to 9. *)
Theorem module_resolver_matches_table :
  map fst module_table = VtigerModule /\
  length VtigerModule = 22 /\
  NoDup VtigerModule /\
  (forall key : string,
      match lookup key module_table with
      | Some (id, display) =>
          getModuleId key = VNum id /\ getModuleName key = VStr display
      | None =>
          getModuleId key = VNull /\ getModuleName key = VNull
      end) /\
  (forall key : string, lookup key module_table = None <-> ~ In key VtigerModule) /\
  getModuleId "calendar" = VNum 9 /\ getModuleId "helpdesk" = VNum 9.
Proof.
  split; [reflexivity|]. split; [reflexivity|]. split.
  - unfold VtigerModule.
    repeat (constructor; [simpl; intuition discriminate|]). constructor.
  - split; [|split; [|split; reflexivity]].
    + intros key. rewrite getModuleId_table, getModuleName_table.
      destruct (lookup key module_table) as [[id display]|]; auto.
    + intros key. apply (lookup_None_iff key module_table).
Qed.

(** ** The operation dispatcher *)

Section Dispatcher.

Variable TypeError_message : value -> string -> string.
Variable axios : list request -> request -> reply.

Lemma known_module (m : string) (id : Z) (display : string) :
  lookup m module_table = Some (id, display) ->
  getModuleId m = VNum id /\ getModuleName m = VStr display.
Proof.
  intros H. rewrite getModuleId_table, getModuleName_table, H. auto.
Qed.

Lemma getModuleId_table_id (key : string) : getModuleId key = table_id key.
Proof.
  rewrite getModuleId_table. unfold table_id.
  now destruct (lookup key module_table) as [[id display]|].
Qed.

Lemma getModuleName_table_name (key : string) :
  getModuleName key = table_name key.
Proof.
  rewrite getModuleName_table. unfold table_name.
  now destruct (lookup key module_table) as [[id display]|].
Qed.

(** C7.  For defined module keys and safe-integer record numbers,
    [retrieve] hands axios exactly one GET with operation=retrieve, the
    current session token and id = "{moduleId}x{recordNumber}", and
    settles as that request does; update, delete, retrieveRelated,
    queryRelated, deleteRelated and addRelated put the same record
    reference wherever a record id goes.  For [update] that place is the
    [id] property of the record it posts, whose other properties are the
    caller's. *)
Theorem record_reference_wire_format
        (w : world) (m rm : string) (id rid : Z) (display rdisplay : string)
        (n k : Z) (fields : list (string * value)) (label : string) :
  lookup m module_table = Some (id, display) ->
  lookup rm module_table = Some (rid, rdisplay) ->
  safe_integer n = true ->
  safe_integer k = true ->
  let self := this w in
  let target := webserviceUrl self in
  let one (r : request) :=
    (settle (axios (sent w) r), mkWorld self (sent w ++ [r])) in
  retrieve axios m n w =
    one (GET target [("operation", VStr "retrieve");
                     ("sessionName", sessionId self);
                     ("id", VStr (RecordRef id n))]) /\
  (exists posted,
      let r := POST target
                    [("operation", "update");
                     ("sessionName", ToString (sessionId self));
                     ("element", ToString (JSON_stringify (VObj posted)))]
                    form_config in
      fst (update TypeError_message axios m n (VObj fields) w) =
        settle (axios (sent w) r) /\
      sent (snd (update TypeError_message axios m n (VObj fields) w)) =
        (sent w ++ [r])%list /\
      lookup "id" posted = Some (VStr (RecordRef id n)) /\
      (forall key, key <> "id" -> lookup key posted = lookup key fields) /\
      map fst posted =
        match lookup "id" fields with
        | Some _ => map fst fields
        | None => (map fst fields ++ ["id"])%list
        end) /\
  delete axios m n w =
    one (POST target
           [("operation", "delete");
            ("sessionName", ToString (sessionId self));
            ("id", RecordRef id n)]
           form_config) /\
  retrieveRelated axios m n rm label w =
    one (GET target [("operation", VStr "retrieve_related");
                     ("sessionName", sessionId self);
                     ("id", VStr (RecordRef id n));
                     ("relatedLabel", VStr label);
                     ("relatedType", VStr rdisplay)]) /\
  queryRelated axios m n label w =
    one (GET target [("operation", VStr "query_related");
                     ("sessionName", sessionId self);
                     ("query", VStr ("SELECT * FROM " ++ display));
                     ("id", VStr (RecordRef id n));
                     ("relatedLabel", VStr label)]) /\
  deleteRelated axios m n rm k w =
    one (POST target
           [("operation", "delete_related");
            ("sessionName", ToString (sessionId self));
            ("sourceRecordId", RecordRef id n);
            ("relatedRecordId", RecordRef rid k)]
           form_config) /\
  addRelated axios m n rm k label w =
    one (POST target
           [("operation", "add_related");
            ("sessionName", ToString (sessionId self));
            ("sourceRecordId", RecordRef id n);
            ("relatedRecordId", RecordRef rid k);
            ("relationIdLabel", label)]
           form_config).
Proof.
  intros Hm Hrm _ _ self target one.
  destruct (known_module _ _ _ Hm) as [Hid _].
  destruct (known_module _ _ _ Hrm) as [Hrid Hrname].
  destruct (known_module _ _ _ Hm) as [_ Hname].
  pose proof (dispatch_run TypeError_message axios (Retrieve m n) w) as R1.
  pose proof (dispatch_run TypeError_message axios (Update m n fields) w) as R2.
  pose proof (dispatch_run TypeError_message axios (Delete m n) w) as R3.
  pose proof (dispatch_run TypeError_message axios (RetrieveRelated m n rm label) w) as R4.
  pose proof (dispatch_run TypeError_message axios (QueryRelated m n label) w) as R5.
  pose proof (dispatch_run TypeError_message axios (DeleteRelated m n rm k) w) as R6.
  pose proof (dispatch_run TypeError_message axios (AddRelated m n rm k label) w) as R7.
  unfold request_of, request_with in *. simpl dispatch in *.
  rewrite ?Hid, ?Hrid, ?Hname, ?Hrname in *.
  split; [assumption|]. split; [|repeat split; assumption].
  exists (assign "id" (VStr (RecordRef id n)) fields).
  cbv zeta. rewrite R2. cbn [fst snd sent].
  split; [reflexivity|]. split; [reflexivity|].
  split; [apply lookup_assign_same|].
  split; [intros key Hk; now apply lookup_assign_other | apply assign_keys].
Qed.

(** C8.  For a defined module key, the query parameter of [queryRelated]
    is "SELECT * FROM " followed by the module's display name, whatever
    the record number and the related label are. *)
Theorem queryRelated_fixed_query
        (w : world) (m : string) (id : Z) (display : string)
        (n : Z) (label : string) :
  lookup m module_table = Some (id, display) ->
  let r := GET (webserviceUrl (this w))
               [("operation", VStr "query_related");
                ("sessionName", sessionId (this w));
                ("query", VStr ("SELECT * FROM " ++ display));
                ("id", VStr (RecordRef id n));
                ("relatedLabel", VStr label)] in
  queryRelated axios m n label w =
    (settle (axios (sent w) r), mkWorld (this w) (sent w ++ [r])).
Proof.
  intros Hm r. destruct (known_module _ _ _ Hm) as [Hid Hname].
  pose proof (dispatch_run TypeError_message axios (QueryRelated m n label) w) as R.
  unfold request_of, request_with in R. simpl dispatch in R.
  rewrite Hid, Hname in R. exact R.
Qed.

(** C6, amended.  [create] posts the record with [assigned_user_id] set
    to the client's [userId] when the record's own entry is missing or
    falsy (undefined, null, false, 0, the empty string), and posts the
    record as it came when the entry is truthy. *)
Theorem create_defaults_assignee
        (w : world) (module : string) (fields : list (string * value)) :
  let current := field (VObj fields) "assigned_user_id" in
  let posted :=
    if truthy current then fields
    else assign "assigned_user_id" (userId (this w)) fields in
  let r := POST (webserviceUrl (this w))
                [("operation", "create");
                 ("sessionName", ToString (sessionId (this w)));
                 ("element", ToString (JSON_stringify (VObj posted)));
                 ("elementType", ToString (getModuleName module))]
                form_config in
  create TypeError_message axios module (VObj fields) w =
    (settle (axios (sent w) r), mkWorld (this w) (sent w ++ [r])) /\
  field (VObj posted) "assigned_user_id" =
    (if truthy current then current else userId (this w)).
Proof.
  intros current posted r.
  pose proof (dispatch_run TypeError_message axios (Create module fields) w) as R.
  unfold request_of, request_with, with_assignee, js_or in R. simpl dispatch in R.
  fold current in R.
  assert (E : assign "assigned_user_id"
                (if truthy current then current else userId (this w)) fields
              = posted).
  { unfold posted. destruct (truthy current) eqn:T; [|reflexivity].
    apply assign_current. unfold current, field in *.
    destruct (lookup "assigned_user_id" fields); [reflexivity | discriminate]. }
  rewrite E in R. split; [exact R|].
  rewrite <- E. unfold field. now rewrite lookup_assign_same.
Qed.

(** C3, amended.  A module key outside the enumeration raises no error of
    its own.  Each module argument is resolved by itself, a key of the
    table to its id and name and any other key to null, and the operation
    hands axios exactly one request, the one of its shape with those
    values, and settles as that request does.  So [retrieve] on an unknown
    key sends id="nullx{recordNumber}", [create] posts elementType=null,
    and [deleteRelated] with a known source and an unknown related module
    sends "{moduleId}x{n}" beside "nullx{k}".  Record numbers are safe
    integers. *)
Theorem unknown_module_is_sent_as_null (c : call) (w : world) :
  forallb safe_integer (numbers_of c) = true ->
  let r := request_with table_id table_name (this w) c in
  dispatch TypeError_message axios c w =
    (settle (axios (sent w) r), mkWorld (this w) (sent w ++ [r])) /\
  (forall key, ~ In key VtigerModule ->
     table_id key = VNull /\ table_name key = VNull) /\
  (forall m n, c = Retrieve m n -> ~ In m VtigerModule ->
     r = GET (webserviceUrl (this w))
             [("operation", VStr "retrieve");
              ("sessionName", sessionId (this w));
              ("id", VStr ("nullx" ++ Number_toString n))]) /\
  (forall m fields, c = Create m fields -> ~ In m VtigerModule ->
     r = POST (webserviceUrl (this w))
              [("operation", "create");
               ("sessionName", ToString (sessionId (this w)));
               ("element",
                ToString (JSON_stringify (VObj (with_assignee (this w) fields))));
               ("elementType", "null")]
              form_config) /\
  (forall sm sn rm rn id display,
     c = DeleteRelated sm sn rm rn ->
     lookup sm module_table = Some (id, display) -> ~ In rm VtigerModule ->
     r = POST (webserviceUrl (this w))
              [("operation", "delete_related");
               ("sessionName", ToString (sessionId (this w)));
               ("sourceRecordId", RecordRef id sn);
               ("relatedRecordId", "nullx" ++ Number_toString rn)]
              form_config).
Proof.
  intros _ r.
  assert (N : forall key, ~ In key VtigerModule ->
                          table_id key = VNull /\ table_name key = VNull).
  { intros key H. apply (lookup_None_iff key module_table) in H.
    unfold table_id, table_name. now rewrite H. }
  split; [|split; [exact N|split; [|split]]].
  - rewrite dispatch_run. subst r.
    assert (E : request_of (this w) c
                = request_with table_id table_name (this w) c).
    { unfold request_of, request_with.
      destruct c;
        rewrite ?getModuleId_table_id, ?getModuleName_table_name; reflexivity. }
    now rewrite E.
  - intros m n -> H. subst r. unfold request_with.
    now rewrite (proj1 (N m H)).
  - intros m fields -> H. subst r. unfold request_with.
    now rewrite (proj2 (N m H)).
  - intros sm sn rm rn id display -> Hs H. subst r. unfold request_with.
    rewrite (proj1 (N rm H)). unfold table_id. now rewrite Hs.
Qed.

(** C10, amended.  While [sessionId] is still null (no login has
    succeeded), every dispatcher operation raises nothing on that account
    and hands axios exactly one request: a GET operation passes
    sessionName as null in its params object, a POST operation
    form-encodes it as the four-character string "null".  The caller's
    promise settles as the request does: it resolves with the decoded
    envelope of the remote, a rejection envelope included, and rejects
    with the transport's error. *)
Theorem before_login_session_is_null (c : call) (w : world) :
  sessionId (this w) = VNull ->
  exists r,
    dispatch TypeError_message axios c w =
      (settle (axios (sent w) r), mkWorld (this w) (sent w ++ [r])) /\
    match r with
    | GET _ params => lookup "sessionName" params = Some VNull
    | POST _ body _ => lookup "sessionName" body = Some "null"
    end.
Proof.
  intros H. exists (request_of (this w) c). split; [apply dispatch_run|].
  unfold request_of, request_with. rewrite H. destruct c; reflexivity.
Qed.

End Dispatcher.

(** ** The session manager *)

Section Session.

Variable md5 : string -> string.
Variable TypeError_message : value -> string -> string.
Variable axios : list request -> request -> reply.

(** C9.  [logout] posts operation=logout with the current session token,
    settles as that request does, and in every run leaves the client
    instance, [sessionId], [userId] and [user] included, as it was. *)
Theorem logout_keeps_session (w : world) :
  let r := POST (webserviceUrl (this w))
                [("operation", "logout");
                 ("sessionName", ToString (sessionId (this w)))]
                form_config in
  logout axios w = (settle (axios (sent w) r), mkWorld (this w) (sent w ++ [r])) /\
  this (snd (logout axios w)) = this w.
Proof.
  intros r. assert (E : logout axios w
              = (settle (axios (sent w) r), mkWorld (this w) (sent w ++ [r]))).
  { run_method. subst r.
    match goal with
    | |- context [axios ?h ?q] => destruct (axios h q)
    end; reflexivity. }
  split; [exact E | now rewrite E].
Qed.

(** Reading a property of a value that is neither null nor undefined
    completes normally with [field]. *)
Lemma Get_field (base : value) (k : string) (w : world) :
  is_nullish base = false ->
  Get TypeError_message base k w = (Normal (field base k), w).
Proof. destruct base; simpl; intros H; try discriminate; reflexivity. Qed.

Lemma Get_optional_field (base : value) (k : string) (w : world) :
  Get_optional TypeError_message base k w = (Normal (field base k), w).
Proof. destruct base; reflexivity. Qed.

Lemma truthy_not_nullish (v : value) : truthy v = true -> is_nullish v = false.
Proof. destruct v; simpl; congruence. Qed.

Lemma field_not_nullish (v : value) (k : string) :
  is_nullish (field v k) = false -> is_nullish v = false.
Proof. destruct v; simpl; congruence. Qed.

(** The challenge step on a decoded body whose [success] is falsy. *)
Lemma getChallenge_refused (w : world) (d : value) :
  axios (sent w) (challenge_request (this w)) = Response (mkResponse d) ->
  is_nullish d = false ->
  truthy (field d "success") = false ->
  getChallenge TypeError_message axios w =
    (Throw (ThrownError
              (new_Error (js_or (field (field d "error") "message")
                                (VStr "Operation failed: getchallenge")))),
     mkWorld (this w) (sent w ++ [challenge_request (this w)])).
Proof.
  intros Hreply Hd Hs.
  unfold getChallenge, try_catch, bind, read, axios_get, send, await.
  cbn [this sent]. unfold challenge_request in Hreply. rewrite Hreply.
  rewrite (Get_field _ _ _ Hd). cbn [data]. rewrite Hs. cbn [negb].
  rewrite (Get_field _ _ _ Hd), Get_optional_field. reflexivity.
Qed.

(** The challenge step on a decoded body whose [success] is truthy. *)
Lemma getChallenge_granted (w : world) (d : value) :
  axios (sent w) (challenge_request (this w)) = Response (mkResponse d) ->
  truthy (field d "success") = true ->
  getChallenge TypeError_message axios w =
    (Normal d, mkWorld (this w) (sent w ++ [challenge_request (this w)])).
Proof.
  intros Hreply Hs.
  assert (Hd : is_nullish d = false).
  { apply (field_not_nullish d "success"). now apply truthy_not_nullish. }
  unfold getChallenge, try_catch, bind, read, axios_get, send, await.
  cbn [this sent]. unfold challenge_request in Hreply. rewrite Hreply.
  rewrite (Get_field _ _ _ Hd). cbn [data]. rewrite Hs. reflexivity.
Qed.

Lemma Get_cases (base : value) (k : string) (w : world) :
  Get TypeError_message base k w =
    (if is_nullish base
     then Throw (ThrownError (mkError "TypeError" (TypeError_message base k)))
     else Normal (field base k),
     w).
Proof. destruct base; reflexivity. Qed.

(** One step through the body of [login], held in hypothesis [E]. *)
Ltac step_in E :=
  cbn -[Get Get_optional field is_nullish truthy String.append] in E;
  first
    [ rewrite Get_cases in E
    | match type of E with
      | context [axios ?h ?r] => destruct (axios h r) eqn:?
      end
    | match type of E with
      | context [if is_nullish ?v then _ else _] => destruct (is_nullish v) eqn:?
      end
    | progress (inversion E; subst; clear E) ].

(** The catch clause of [login] rejects and writes nothing. *)
Lemma login_catch_frame (t : thrown) (w : world) :
  exists t',
    (reason <- message_or_error TypeError_message t ;;
     @Promise_reject value reason) w
    = (Throw t', w).
Proof.
  unfold message_or_error, bind, Promise_reject, throw, ret.
  destruct t as [e|v].
  - eauto.
  - rewrite Get_cases. destruct (is_nullish v); eauto.
Qed.

(** C1.  When the challenge step succeeds with token [T], [login] hands
    axios the challenge GET and then one form-encoded POST whose
    parameters are operation=login, the configured username and
    accessKey = MD5(T + accessKey).  The parameter values handed to axios
    in the run are the two operation names, the username and that digest:
    the configured accessKey enters the wire through the digest only. *)
Theorem login_posts_digest (w : world) (d : value) (T : string) :
  axios (sent w) (challenge_request (this w)) = Response (mkResponse d) ->
  truthy (field d "success") = true ->
  field (field d "result") "token" = VStr T ->
  let hash := md5 (T ++ accessKey (this w)) in
  let post := POST (webserviceUrl (this w))
                   [("operation", "login");
                    ("username", username (this w));
                    ("accessKey", hash)]
                   form_config in
  sent (snd (login md5 TypeError_message axios w)) =
    (sent w ++ [challenge_request (this w); post])%list /\
  flat_map wire_values [challenge_request (this w); post] =
    ["getchallenge"; username (this w); "login"; username (this w); hash].
Proof.
  intros Hreply Hs Htoken hash post. split; [|reflexivity].
  assert (Hd : is_nullish d = false).
  { apply (field_not_nullish d "success"). now apply truthy_not_nullish. }
  assert (Hr : is_nullish (field d "result") = false).
  { apply (field_not_nullish _ "token"). now rewrite Htoken. }
  unfold login.
  match goal with
  | |- context [try_catch ?body ?handler w] =>
      unfold try_catch; destruct (body w) as [[v|t] w'] eqn:E
  end.
  2: destruct (login_catch_frame t w') as [t' Ht]; rewrite Ht.
  all: cbn [snd];
       unfold bind, await, read, axios_post, send, write_sessionId,
         write_userId, write_user, Promise_resolve, ret, append,
         URLSearchParams in E;
       rewrite (getChallenge_granted w d Hreply Hs) in E;
       repeat step_in E; try discriminate;
       cbn [this sent]; rewrite <- app_assoc; cbn [app];
       subst post hash; rewrite Htoken; reflexivity.
Qed.

(** C4.  When the challenge step gets a decoded body whose [success] is
    falsy, [login] hands axios the challenge GET and nothing else, leaves
    the client instance as it was, and rejects with the text of the
    body's [error.message], or with "Operation failed: getchallenge"
    when that message is missing or falsy. *)
Theorem login_stops_at_refused_challenge (w : world) (d : value) :
  axios (sent w) (challenge_request (this w)) = Response (mkResponse d) ->
  is_nullish d = false ->
  truthy (field d "success") = false ->
  let m := field (field d "error") "message" in
  login md5 TypeError_message axios w =
    (Throw (challenge_rejection m),
     mkWorld (this w) (sent w ++ [challenge_request (this w)])) /\
  (forall s, m = VStr s -> s <> "" -> challenge_rejection m = ThrownValue (VStr s)) /\
  (truthy m = false ->
   challenge_rejection m = ThrownValue (VStr "Operation failed: getchallenge")).
Proof.
  intros Hreply Hd Hs m. split; [|split].
  - unfold login, try_catch, bind, await.
    rewrite (getChallenge_refused w d Hreply Hd Hs). fold m.
    unfold message_or_error, new_Error, challenge_rejection, Promise_reject,
      throw, ret. cbn [message truthy].
    destruct (ToString (js_or m (VStr "Operation failed: getchallenge")) =? "");
      reflexivity.
  - intros s Hm Hne. apply String.eqb_neq in Hne.
    unfold challenge_rejection, js_or. rewrite Hm. cbn [truthy].
    rewrite Hne. cbn [negb ToString]. now rewrite Hne.
  - intros Hf. unfold challenge_rejection, js_or. rewrite Hf. reflexivity.
Qed.

End Session.

(** ** Closed runs *)

Example login_opens_the_session :
  login digest_stub v8_message vtiger_stub fresh =
    (Normal (VObj [("success", VBool true);
                   ("result", VObj [("sessionName", VStr "6c1d07");
                                    ("userId", VStr "19x1");
                                    ("version", VStr "0.22")])]),
     mkWorld (this logged_in)
       [GET endpoint [("operation", VStr "getchallenge"); ("username", VStr "admin")];
        POST endpoint
             [("operation", "login"); ("username", "admin");
              ("accessKey", "md5(5f3a9cs3cr3t)")]
             form_config]).
Proof. reflexivity. Qed.

Example login_without_network :
  login digest_stub v8_message offline_stub fresh =
    (Throw (ThrownValue (VStr "Network Error")),
     mkWorld (this fresh)
       [GET endpoint [("operation", VStr "getchallenge"); ("username", VStr "admin")]]).
Proof. reflexivity. Qed.

Example login_with_refused_credentials :
  login digest_stub v8_message denying_stub fresh =
    (Throw (ThrownValue
              (VStr "Cannot read properties of undefined (reading 'sessionName')")),
     mkWorld (this fresh)
       [GET endpoint [("operation", VStr "getchallenge"); ("username", VStr "admin")];
        POST endpoint
             [("operation", "login"); ("username", "admin");
              ("accessKey", "md5(5f3a9cs3cr3t)")]
             form_config]).
Proof. reflexivity. Qed.

Example login_loses_the_connection :
  login digest_stub v8_message dropping_stub logged_in =
    (Throw (ThrownValue (VStr "socket hang up")),
     mkWorld (this logged_in)
       [GET endpoint [("operation", VStr "getchallenge"); ("username", VStr "admin")];
        POST endpoint
             [("operation", "login"); ("username", "admin");
              ("accessKey", "md5(5f3a9cs3cr3t)")]
             form_config]).
Proof. reflexivity. Qed.

Example retrieve_twice_same_answer :
  let first := retrieve vtiger_stub "contacts" 42 logged_in in
  fst (retrieve vtiger_stub "contacts" 42 (snd first)) = fst first /\
  this (snd first) = this logged_in.
Proof. split; reflexivity. Qed.

(** The handshake against the stub remote: token 5f3a9c, secret s3cr3t. *)
Lemma login_posts_digest_witness :
  sent (snd (login digest_stub v8_message vtiger_stub fresh)) =
    [GET endpoint [("operation", VStr "getchallenge"); ("username", VStr "admin")];
     POST endpoint
          [("operation", "login"); ("username", "admin");
           ("accessKey", digest_stub "5f3a9cs3cr3t")]
          form_config].
Proof.
  exact (proj1 (login_posts_digest digest_stub v8_message vtiger_stub fresh _
                  "5f3a9c" eq_refl eq_refl eq_refl)).
Defined.

(** The refused challenge: one request, the remote's message as reason. *)
Lemma login_stops_at_refused_challenge_witness :
  login digest_stub v8_message refusing_stub fresh =
    (Throw (ThrownValue (VStr "Permission to perform the operation is denied")),
     mkWorld (this fresh)
       [GET endpoint [("operation", VStr "getchallenge"); ("username", VStr "admin")]]).
Proof.
  exact (proj1 (login_stops_at_refused_challenge digest_stub v8_message
                  refusing_stub fresh _ eq_refl eq_refl eq_refl)).
Defined.

(** "contacts" resolves to 4: record 42 is sent as 4x42. *)
Lemma record_reference_wire_format_witness :
  retrieve vtiger_stub "contacts" 42 logged_in =
    (Normal accepted,
     mkWorld (this logged_in)
       [GET endpoint [("operation", VStr "retrieve");
                      ("sessionName", VStr "6c1d07");
                      ("id", VStr "4x42")]]).
Proof.
  exact (proj1 (record_reference_wire_format v8_message vtiger_stub logged_in
                  "contacts" "documents" 4 7 "Contacts" "Documents" 42 7
                  [] "Documents" eq_refl eq_refl eq_refl eq_refl)).
Defined.

(** queryRelated("contacts", 7, "Documents") *)
Lemma queryRelated_fixed_query_witness :
  queryRelated vtiger_stub "contacts" 7 "Documents" logged_in =
    (Normal accepted,
     mkWorld (this logged_in)
       [GET endpoint [("operation", VStr "query_related");
                      ("sessionName", VStr "6c1d07");
                      ("query", VStr "SELECT * FROM Contacts");
                      ("id", VStr "4x7");
                      ("relatedLabel", VStr "Documents")]]).
Proof.
  exact (queryRelated_fixed_query v8_message vtiger_stub logged_in
           "contacts" 4 "Contacts" 7 "Documents" eq_refl).
Defined.

(** "bogus" is none of the 22 keys. *)
Lemma bogus_is_no_module (m : string) :
  In m ["bogus"] -> ~ In m VtigerModule.
Proof.
  intros [<-|[]] H. simpl in H.
  repeat (destruct H as [H|H]; [discriminate|]). exact H.
Defined.

(** deleteRelated("contacts", 1, "bogus", 2) on a logged-in client: one
    known and one unknown module. *)
Lemma unknown_module_is_sent_as_null_witness :
  dispatch v8_message vtiger_stub (DeleteRelated "contacts" 1 "bogus" 2) logged_in =
    (Normal accepted,
     mkWorld (this logged_in)
       [POST endpoint
             [("operation", "delete_related");
              ("sessionName", "6c1d07");
              ("sourceRecordId", "4x1");
              ("relatedRecordId", "nullx2")]
             form_config]).
Proof.
  exact (proj1 (unknown_module_is_sent_as_null v8_message vtiger_stub
                  (DeleteRelated "contacts" 1 "bogus" 2) logged_in eq_refl)).
Defined.

(** delete("leads", 7) on a client that never logged in. *)
Lemma before_login_session_is_null_witness :
  exists r,
    dispatch v8_message vtiger_stub (Delete "leads" 7) fresh =
      (settle (vtiger_stub [] r), mkWorld (this fresh) [r]) /\
    match r with
    | GET _ params => lookup "sessionName" params = Some VNull
    | POST _ body _ => lookup "sessionName" body = Some "null"
    end.
Proof.
  exact (before_login_session_is_null v8_message vtiger_stub
           (Delete "leads" 7) fresh eq_refl).
Defined.

(** ** Where the code departs from the specification *)

(** C3, as stated, fails: [retrieve] with the key "bogus", which is no
    member of [VtigerModule], is not rejected before sending; the request
    goes out with id=nullx42 and the call resolves with the remote's
    answer. *)
Lemma retrieve_unknown_module_reaches_the_wire :
  ~ In "bogus" VtigerModule /\
  ~ fails_before_sending v8_message vtiger_stub (Retrieve "bogus" 42) logged_in /\
  dispatch v8_message vtiger_stub (Retrieve "bogus" 42) logged_in =
    (Normal accepted,
     mkWorld (this logged_in)
       [GET endpoint [("operation", VStr "retrieve");
                      ("sessionName", VStr "6c1d07");
                      ("id", VStr "nullx42")]]).
Proof.
  split; [apply bogus_is_no_module; simpl; auto|].
  split; [|reflexivity].
  intros [e [H _]]. vm_compute in H. discriminate.
Qed.

(** C6, as stated, fails: a record whose [assigned_user_id] is the empty
    string has the entry, yet [create] posts it with the client's [userId]
    in its place. *)
Lemma create_replaces_empty_assignee :
  let fields := [("lastname", VStr "Doe"); ("assigned_user_id", VStr "")] in
  lookup "assigned_user_id" fields = Some (VStr "") /\
  ~ posts_assignee_as_given v8_message vtiger_stub "leads" fields logged_in /\
  exists r,
    sent (snd (create v8_message vtiger_stub "leads" (VObj fields) logged_in)) = [r] /\
    posted_element r =
      Some (ToString (JSON_stringify
                        (VObj [("lastname", VStr "Doe");
                               ("assigned_user_id", VStr "19x1")]))).
Proof.
  split; [reflexivity|]. split.
  - intros [r [H1 H2]]. vm_compute in H1. injection H1 as <-.
    vm_compute in H2. discriminate.
  - eexists. split; reflexivity.
Qed.

(** C10, as stated, fails: on a client that has not logged in, [create]
    posts sessionName=null, the four-character string, which is neither
    empty nor absent. *)
Lemma create_before_login_posts_null_session :
  let c := Create "leads" [("lastname", VStr "Doe")] in
  sessionId (this fresh) = VNull /\
  ~ sends_without_session v8_message vtiger_stub c fresh /\
  exists target body headers,
    sent (snd (dispatch v8_message vtiger_stub c fresh)) = [POST target body headers] /\
    lookup "sessionName" body = Some "null".
Proof.
  split; [reflexivity|]. split.
  - intros [r [H1 H2]]. vm_compute in H1. injection H1 as <-.
    vm_compute in H2. discriminate.
  - do 3 eexists. split; reflexivity.
Qed.


(** ** More on the module resolver *)

Lemma lookup_In {A : Type} (k : string) (a : A) (table : list (string * A)) :
  lookup k table = Some a -> In (k, a) table.
Proof.
  induction table as [|[k' a'] rest IH]; simpl; [discriminate|].
  destruct (k' =? k) eqn:E.
  - apply String.eqb_eq in E. intros [= <-]. subst. now left.
  - intros H. right. now apply IH.
Qed.

Lemma getModuleName_entry (k display : string) :
  getModuleName k = VStr display ->
  exists id, In (k, (id, display)) module_table.
Proof.
  rewrite getModuleName_table.
  destruct (lookup k module_table) as [[id nm]|] eqn:E; [|discriminate].
  intros [= <-]. exists id. now apply lookup_In.
Qed.

Lemma getModuleId_entry (k : string) (id : Z) :
  getModuleId k = VNum id ->
  exists display, In (k, (id, display)) module_table.
Proof.
  rewrite getModuleId_table.
  destruct (lookup k module_table) as [[i nm]|] eqn:E; [|discriminate].
  intros [= <-]. exists nm. now apply lookup_In.
Qed.

(** Going through the 22 rows of the table. *)
Ltac each_row H :=
  unfold module_table in H; simpl in H;
  repeat (destruct H as [H|H];
          [first [discriminate H | inversion H; subst; clear H]|]);
  [..|contradiction].

(** The display name of a module, lower-cased, is its key; and a display
    name is itself no key: both switches are case-sensitive and return
    null on it. *)
Theorem module_name_lowercased_is_key (k display : string) :
  getModuleName k = VStr display ->
  toLowerCase display = k /\
  getModuleId display = VNull /\ getModuleName display = VNull.
Proof.
  intros H. destruct (getModuleName_entry _ _ H) as [id Hin].
  each_row Hin; repeat split; reflexivity.
Qed.

(** getModuleName("purchaseorder") is "PurchaseOrder". *)
Lemma module_name_lowercased_is_key_witness :
  toLowerCase "PurchaseOrder" = "purchaseorder" /\
  getModuleId "PurchaseOrder" = VNull /\ getModuleName "PurchaseOrder" = VNull.
Proof.
  exact (module_name_lowercased_is_key "purchaseorder" "PurchaseOrder" eq_refl).
Defined.

(** The numeric ids are exactly 2..22; two different keys share an id only
    when they are "calendar" and "helpdesk" (id 9), and for that pair
    [retrieve] hands axios the same request. *)
Theorem module_ids_range_and_collision :
  (forall k id, getModuleId k = VNum id -> (2 <= id <= 22)%Z) /\
  (forall id, (2 <= id <= 22)%Z -> exists k, getModuleId k = VNum id) /\
  (forall k1 k2 id,
      getModuleId k1 = VNum id -> getModuleId k2 = VNum id ->
      k1 = k2 \/ (id = 9%Z /\
                  ((k1 = "calendar" /\ k2 = "helpdesk") \/
                   (k1 = "helpdesk" /\ k2 = "calendar")))) /\
  (forall axios n w,
      retrieve axios "calendar" n w = retrieve axios "helpdesk" n w).
Proof.
  split; [|split; [|split]].
  - intros k id H. destruct (getModuleId_entry _ _ H) as [nm Hin].
    each_row Hin; lia.
  - intros id H.
    assert (E : In id [2; 3; 4; 5; 6; 7; 8; 9; 10; 11; 12; 13; 14; 15; 16; 17;
                       18; 19; 20; 21; 22]%Z) by (simpl; lia).
    simpl in E.
    repeat (destruct E as [<-|E];
            [first [ now exists "leads" | now exists "accounts"
                   | now exists "contacts" | now exists "potentials"
                   | now exists "products" | now exists "documents"
                   | now exists "emails" | now exists "helpdesk"
                   | now exists "faq" | now exists "vendors"
                   | now exists "pricebooks" | now exists "quotes"
                   | now exists "purchaseorder" | now exists "salesorder"
                   | now exists "invoice" | now exists "campaigns"
                   | now exists "events" | now exists "users"
                   | now exists "groups" | now exists "currency"
                   | now exists "documentfolders" ]|]).
    contradiction.
  - intros k1 k2 id H1 H2.
    destruct (getModuleId_entry _ _ H1) as [n1 Hin1].
    destruct (getModuleId_entry _ _ H2) as [n2 Hin2].
    each_row Hin1; each_row Hin2; auto.
  - reflexivity.
Qed.

(** ** Record references *)

Lemma digits_have_no_x (d : Decimal.uint) :
  has_x (NilEmpty.string_of_uint d) = false.
Proof. induction d; simpl; auto. Qed.

Lemma Number_toString_has_no_x (z : Z) : has_x (Number_toString z) = false.
Proof.
  unfold Number_toString.
  destruct (Z.to_int z) as [d|d]; simpl;
    destruct d; try reflexivity; apply digits_have_no_x.
Qed.

Lemma Number_toString_inj (z z' : Z) :
  Number_toString z = Number_toString z' -> z = z'.
Proof.
  unfold Number_toString. intros H.
  assert (N : forall y, Z.to_int y <> Decimal.Pos Decimal.Nil /\
                        Z.to_int y <> Decimal.Neg Decimal.Nil).
  { intros [|p|p]; simpl; split; try discriminate;
      intros [= E]; now apply (Unsigned.to_uint_nonnil p). }
  apply (f_equal NilZero.int_of_string) in H.
  rewrite !NilZero.isi in H by apply N.
  injection H as H. apply (f_equal Z.of_int) in H.
  now rewrite !DecimalZ.of_to in H.
Qed.

Lemma split_at_x (a a' b b' : string) :
  has_x a = false -> has_x a' = false ->
  a ++ String "x" b = a' ++ String "x" b' -> a = a' /\ b = b'.
Proof.
  revert a'. induction a as [|c a IH]; intros [|c' a'] Ha Ha' H; simpl in *.
  - injection H as ->. auto.
  - injection H as <- _. now rewrite Ascii.eqb_refl in Ha'.
  - injection H as -> _. now rewrite Ascii.eqb_refl in Ha.
  - injection H as -> H.
    apply orb_false_elim in Ha as [_ Ha]. apply orb_false_elim in Ha' as [_ Ha'].
    destruct (IH a' Ha Ha' H) as [-> ->]. auto.
Qed.

Lemma RecordRef_inj (id id' n n' : Z) :
  RecordRef id n = RecordRef id' n' -> id = id' /\ n = n'.
Proof.
  unfold RecordRef. intros H.
  apply split_at_x in H; try apply Number_toString_has_no_x.
  destruct H as [H1 H2].
  split; now apply Number_toString_inj.
Qed.

(** The request of [retrieve] determines the module id and the record
    number: for defined keys and safe-integer record numbers, two calls
    hand axios the same request only when their module ids and their
    record numbers are the same. *)
Theorem retrieve_request_determines_record
        (axios : list request -> request -> reply) (w : world)
        (m m' : string) (id id' n n' : Z) :
  getModuleId m = VNum id -> getModuleId m' = VNum id' ->
  safe_integer n = true -> safe_integer n' = true ->
  sent (snd (retrieve axios m n w)) = sent (snd (retrieve axios m' n' w)) ->
  id = id' /\ n = n'.
Proof.
  intros Hm Hm' _ _ H.
  pose proof (dispatch_run (fun _ _ => "") axios (Retrieve m n) w) as R.
  pose proof (dispatch_run (fun _ _ => "") axios (Retrieve m' n') w) as R'.
  simpl dispatch in R, R'. rewrite R, R' in H. cbn [snd sent] in H.
  apply app_inv_head in H. unfold request_of, request_with in H.
  rewrite Hm, Hm' in H. injection H as H. now apply RecordRef_inj.
Qed.

(** "calendar" and "helpdesk" both resolve to 9. *)
Lemma retrieve_request_determines_record_witness : 9%Z = 9%Z /\ 42%Z = 42%Z.
Proof.
  exact (retrieve_request_determines_record vtiger_stub logged_in
           "calendar" "helpdesk" 9 9 42 42 eq_refl eq_refl eq_refl eq_refl
           eq_refl).
Defined.

(** ** More on the operation dispatcher *)

Section MoreDispatcher.

Variable TypeError_message : value -> string -> string.
Variable axios : list request -> request -> reply.

(** [create] and [update] with data that is undefined, null, a boolean, a
    number or a string reject with a TypeError, hand nothing to axios and
    leave the client as it was. *)
Theorem create_update_reject_primitive_data
        (module : string) (n : Z) (data0 : value) (w : world) :
  is_primitive data0 = true ->
  create TypeError_message axios module data0 w =
    (Throw (TypeError_of TypeError_message data0 "assigned_user_id"), w) /\
  update TypeError_message axios module n data0 w =
    (Throw (TypeError_of TypeError_message data0 "id"), w).
Proof.
  intros H. destruct data0; try discriminate; split; reflexivity.
Qed.

(** A dispatcher operation never looks into the remote's answer: it
    rejects exactly when the transport fails, with the transport's error
    as it is, and resolves with the decoded body otherwise, whatever its
    [success] flag. *)
Theorem dispatch_rejects_only_when_transport_fails (c : call) (w : world) :
  let r := request_of (this w) c in
  (forall e, fst (dispatch TypeError_message axios c w) = Throw e <->
             axios (sent w) r = Failure e) /\
  (forall d, fst (dispatch TypeError_message axios c w) = Normal d <->
             axios (sent w) r = Response (mkResponse d)).
Proof.
  intros r. rewrite dispatch_run. fold r. cbn [fst].
  destruct (axios (sent w) r) as [[d0]|e0]; cbn [settle data]; split; intros x;
    split; intros H; try discriminate; congruence.
Qed.

(** [update_at] with nothing to load and nowhere to store is [update]. *)
Lemma update_at_own (module : string) (n : Z) (data0 : value) (w : world) :
  update_at TypeError_message axios (ret data0) (fun _ => ret tt) module n w =
    update TypeError_message axios module n data0 w.
Proof. reflexivity. Qed.

Lemma create_at_own (module : string) (data0 : value) (w : world) :
  create_at TypeError_message axios (ret data0) (fun _ => ret tt) module w =
    create TypeError_message axios module data0 w.
Proof. reflexivity. Qed.

(** [update] on the client's own [user] object, when that is a record. *)
Lemma update_user_run (module : string) (n : Z)
      (props : list (string * value)) (w : world) :
  user (this w) = VObj props ->
  let posted :=
    assign "id" (VStr (ToString (getModuleId module) ++ "x" ++ ToString (VNum n)))
           props in
  let r := POST (webserviceUrl (this w))
                [("operation", "update");
                 ("sessionName", ToString (sessionId (this w)));
                 ("element", ToString (JSON_stringify (VObj posted)))]
                form_config in
  update_user TypeError_message axios module n w =
    (settle (axios (sent w) r),
     mkWorld (mkClient (url (this w)) (username (this w)) (accessKey (this w))
                       (sessionId (this w)) (VObj posted) (userId (this w))
                       (webserviceUrl (this w)))
             (sent w ++ [r])).
Proof.
  intros Hu posted r.
  unfold update_user, update_at, try_catch, bind, read, axios_post, send, await,
    write_user, Promise_resolve, Promise_reject, Put, ret, throw, append,
    URLSearchParams.
  subst r posted. cbn [this sent]. rewrite Hu.
  cbn -[getModuleId JSON_stringify String.append].
  match goal with
  | |- context [axios ?h ?q] => destruct (axios h q)
  end; reflexivity.
Qed.

(** [update] posts the record with [id] set to the record reference (for a
    defined module key and a safe-integer record number, the string
    "{moduleId}x{recordNumber}"): a caller-supplied [id] is overwritten in
    its place, a missing one is added last, and every other property goes
    out as it came.  The store is a store into the record that was handed
    in: when that is the object the client holds in [user], the client's
    [user] is the record with the new [id] afterwards, and sessionId and
    userId are as before. *)
Theorem update_overrides_id
        (module : string) (id : Z) (display : string) (n : Z)
        (fields : list (string * value)) (w : world) :
  lookup module module_table = Some (id, display) ->
  safe_integer n = true ->
  let ref := VStr (RecordRef id n) in
  let element_of (posted : list (string * value)) :=
    POST (webserviceUrl (this w))
         [("operation", "update");
          ("sessionName", ToString (sessionId (this w)));
          ("element", ToString (JSON_stringify (VObj posted)))]
         form_config in
  let stored (before posted : list (string * value)) :=
    lookup "id" posted = Some ref /\
    (forall k, k <> "id" -> lookup k posted = lookup k before) /\
    map fst posted =
      match lookup "id" before with
      | Some _ => map fst before
      | None => (map fst before ++ ["id"])%list
      end in
  (exists posted,
      stored fields posted /\
      fst (update TypeError_message axios module n (VObj fields) w) =
        settle (axios (sent w) (element_of posted)) /\
      sent (snd (update TypeError_message axios module n (VObj fields) w)) =
        (sent w ++ [element_of posted])%list) /\
  (user (this w) = VObj fields ->
   exists posted,
      stored fields posted /\
      update_user TypeError_message axios module n w =
        (settle (axios (sent w) (element_of posted)),
         mkWorld (mkClient (url (this w)) (username (this w)) (accessKey (this w))
                           (sessionId (this w)) (VObj posted) (userId (this w))
                           (webserviceUrl (this w)))
                 (sent w ++ [element_of posted]))).
Proof.
  intros Hm _ ref element_of stored.
  destruct (known_module _ _ _ Hm) as [Hid _].
  assert (S : stored fields (assign "id" ref fields)).
  { split; [apply lookup_assign_same|].
    split; [intros k Hk; now apply lookup_assign_other | apply assign_keys]. }
  split.
  - exists (assign "id" ref fields). split; [exact S|].
    pose proof (dispatch_run TypeError_message axios (Update module n fields) w) as R.
    unfold request_of, request_with in R. simpl dispatch in R.
    rewrite Hid in R. rewrite R. split; reflexivity.
  - intros Hu. exists (assign "id" ref fields). split; [exact S|].
    pose proof (update_user_run module n fields w Hu) as R.
    cbv zeta in R. rewrite Hid in R. exact R.
Qed.

(** [create] touches [assigned_user_id] only: every other property of the
    record goes out as it came, in its place, and [assigned_user_id]
    keeps its place when the record has it and goes last when it has not. *)
Theorem create_keeps_other_fields
        (module : string) (fields : list (string * value)) (w : world) :
  let posted := with_assignee (this w) fields in
  let r := POST (webserviceUrl (this w))
                [("operation", "create");
                 ("sessionName", ToString (sessionId (this w)));
                 ("element", ToString (JSON_stringify (VObj posted)));
                 ("elementType", ToString (getModuleName module))]
                form_config in
  create TypeError_message axios module (VObj fields) w =
    (settle (axios (sent w) r), mkWorld (this w) (sent w ++ [r])) /\
  (forall k, k <> "assigned_user_id" -> lookup k posted = lookup k fields) /\
  map fst posted =
    match lookup "assigned_user_id" fields with
    | Some _ => map fst fields
    | None => (map fst fields ++ ["assigned_user_id"])%list
    end.
Proof.
  intros posted r. split; [|split].
  - exact (dispatch_run TypeError_message axios (Create module fields) w).
  - intros k Hk. now apply lookup_assign_other.
  - apply assign_keys.
Qed.

(** For a defined module key, [describe] and [relatedTypes] send the
    module's display name as elementType; [query] sends its argument
    verbatim; [listTypes] sends the operation name and the session token
    only.  Each hands axios exactly one GET and settles as it does. *)
Theorem read_operations_wire_format
        (w : world) (m : string) (id : Z) (display q : string) :
  lookup m module_table = Some (id, display) ->
  let self := this w in
  let one (r : request) :=
    (settle (axios (sent w) r), mkWorld self (sent w ++ [r])) in
  query axios q w =
    one (GET (webserviceUrl self)
             [("operation", VStr "query");
              ("sessionName", sessionId self);
              ("query", VStr q)]) /\
  listTypes axios w =
    one (GET (webserviceUrl self)
             [("operation", VStr "listtypes");
              ("sessionName", sessionId self)]) /\
  describe axios m w =
    one (GET (webserviceUrl self)
             [("operation", VStr "describe");
              ("sessionName", sessionId self);
              ("elementType", VStr display)]) /\
  relatedTypes axios m w =
    one (GET (webserviceUrl self)
             [("operation", VStr "relatedtypes");
              ("sessionName", sessionId self);
              ("elementType", VStr display)]).
Proof.
  intros Hm self one.
  destruct (known_module _ _ _ Hm) as [_ Hname].
  pose proof (dispatch_run TypeError_message axios (Query q) w) as R1.
  pose proof (dispatch_run TypeError_message axios ListTypes w) as R2.
  pose proof (dispatch_run TypeError_message axios (Describe m) w) as R3.
  pose proof (dispatch_run TypeError_message axios (RelatedTypes m) w) as R4.
  unfold request_of, request_with in *. simpl dispatch in *.
  rewrite ?Hname in *. repeat split; assumption.
Qed.

(** Against a transport that keeps no state, repeating a dispatcher call
    hands axios the same request again and settles the same way; and
    calling [create] or [update] again with the record as the first call
    left it builds the same request as the first call. *)
Theorem repeated_call_same_request (c : call) (w : world) :
  stateless axios ->
  let r := request_of (this w) c in
  let first := dispatch TypeError_message axios c w in
  dispatch TypeError_message axios c (snd first) =
    (fst first, mkWorld (this w) (sent w ++ [r; r])) /\
  (forall m fields, c = Create m fields ->
     request_of (this w) (Create m (with_assignee (this w) fields)) = r) /\
  (forall m n fields, c = Update m n fields ->
     request_of (this w)
       (Update m n
          (assign "id"
             (VStr (ToString (getModuleId m) ++ "x" ++ ToString (VNum n))) fields))
     = r).
Proof.
  intros Hs r first. split; [|split].
  - subst first. rewrite !dispatch_run. cbn [fst snd this sent]. fold r.
    rewrite (Hs (sent w ++ [r])%list (sent w) r), <- app_assoc. reflexivity.
  - intros m fields ->. subst r. unfold request_of, request_with.
    assert (E : with_assignee (this w) (with_assignee (this w) fields)
                = with_assignee (this w) fields).
    { unfold with_assignee at 1. apply assign_current.
      unfold with_assignee, field. rewrite !lookup_assign_same.
      f_equal. unfold js_or.
      destruct (truthy match lookup "assigned_user_id" fields with
                       | Some x => x
                       | None => VUndefined
                       end) eqn:T; [now rewrite T | now destruct (truthy (userId (this w)))]. }
    now rewrite E.
  - intros m n fields ->. subst r. unfold request_of, request_with.
    rewrite (assign_current "id" _ (assign "id" _ fields)); [reflexivity|].
    apply lookup_assign_same.
Qed.

End MoreDispatcher.

(** ** More on the session manager *)

Section MoreSession.

Variable md5 : string -> string.
Variable TypeError_message : value -> string -> string.
Variable axios : list request -> request -> reply.

Ltac step_login E :=
  cbn -[Get Get_optional field is_nullish truthy String.append caught] in E;
  first
    [ rewrite Get_cases in E
    | match type of E with
      | context [axios ?h ?r] => destruct (axios h r) eqn:?
      end
    | match type of E with
      | context [if is_nullish ?v then _ else _] => destruct (is_nullish v) eqn:?
      end
    | progress (inversion E; subst; clear E) ].

Lemma login_catch_run (t : thrown) (w : world) :
  (reason <- message_or_error TypeError_message t ;;
   @Promise_reject value reason) w
  = (Throw (caught TypeError_message t), w).
Proof.
  unfold message_or_error, bind, Promise_reject, throw, ret, caught.
  destruct t as [e|v]; [reflexivity|].
  rewrite Get_cases. destruct (is_nullish v); reflexivity.
Qed.

(** [getChallenge], case by case. *)
Lemma getChallenge_run (w : world) :
  getChallenge TypeError_message axios w =
    (match axios (sent w) (challenge_request (this w)) with
     | Failure e => Throw e
     | Response r =>
         if is_nullish (data r)
         then Throw (TypeError_of TypeError_message (data r) "success")
         else if truthy (field (data r) "success") then Normal (data r)
              else Throw (ThrownError
                            (new_Error
                               (js_or (field (field (data r) "error") "message")
                                      (VStr "Operation failed: getchallenge"))))
     end,
     mkWorld (this w) (sent w ++ [challenge_request (this w)])).
Proof.
  unfold getChallenge, try_catch, bind, read, axios_get, send, await,
    Promise_resolve, Promise_reject, ret, throw, challenge_request, TypeError_of.
  cbn [this sent].
  match goal with
  | |- context [axios ?h ?r] => destruct (axios h r) as [r0|e]
  end; [|reflexivity].
  rewrite Get_cases. destruct (is_nullish (data r0)) eqn:N; [reflexivity|].
  destruct (truthy (field (data r0) "success")); cbn [negb]; [reflexivity|].
  rewrite Get_cases, N, Get_optional_field. reflexivity.
Qed.

(** [login] after the challenge step, case by case. *)
Lemma login_after_challenge (w : world) (c1 : completion value) :
  let w1 := mkWorld (this w) (sent w ++ [challenge_request (this w)]) in
  getChallenge TypeError_message axios w = (c1, w1) ->
  login md5 TypeError_message axios w =
    match c1 with
    | Throw t => (Throw (caught TypeError_message t), w1)
    | Normal d =>
        if is_nullish d
        then (Throw (caught TypeError_message
                       (TypeError_of TypeError_message d "result")), w1)
        else if is_nullish (field d "result")
        then (Throw (caught TypeError_message
                       (TypeError_of TypeError_message (field d "result") "token")),
              w1)
        else
          let post := login_request md5 (this w) d in
          let w2 := mkWorld (this w) (sent w1 ++ [post]) in
          match axios (sent w1) post with
          | Failure e => (Throw (caught TypeError_message e), w2)
          | Response r2 =>
              if is_nullish (data r2)
              then (Throw (caught TypeError_message
                             (TypeError_of TypeError_message (data r2) "result")),
                    w2)
              else if is_nullish (field (data r2) "result")
              then (Throw (caught TypeError_message
                             (TypeError_of TypeError_message
                                (field (data r2) "result") "sessionName")),
                    w2)
              else (Normal (data r2),
                    mkWorld (logged_in_as (this w) (data r2)) (sent w2))
          end
    end.
Proof.
  intros w1 Hc. unfold login.
  match goal with
  | |- context [try_catch ?body ?handler w] =>
      unfold try_catch; destruct (body w) as [[v|t] w'] eqn:E
  end.
  2: rewrite login_catch_run.
  all: unfold bind, await, read, axios_post, send, write_sessionId,
         write_userId, write_user, Promise_resolve, ret, append,
         URLSearchParams in E;
       rewrite Hc in E; subst w1; destruct c1 as [d|t0];
       unfold login_request, TypeError_of, logged_in_as; cbn [this sent];
       repeat step_login E; try discriminate; reflexivity.
Qed.




(** When the transport fails at the challenge step, [login] hands axios
    that one request, leaves the client as it was and rejects through its
    catch clause: with the error's message text when the error has a
    non-empty one, not with the error object that the dispatcher
    operations pass on. *)
Theorem login_challenge_transport_failure (w : world) (e : thrown) :
  axios (sent w) (challenge_request (this w)) = Failure e ->
  login md5 TypeError_message axios w =
    (Throw (caught TypeError_message e),
     mkWorld (this w) (sent w ++ [challenge_request (this w)])) /\
  (forall kind text,
      e = ThrownError (mkError kind text) -> text <> "" ->
      caught TypeError_message e = ThrownValue (VStr text)).
Proof.
  intros Hreply. split.
  - pose proof (getChallenge_run w) as G. rewrite Hreply in G.
    now rewrite (login_after_challenge w _ G).
  - intros kind text -> Hne. apply String.eqb_neq in Hne.
    cbn [caught message truthy]. now rewrite Hne.
Qed.

(** When the challenge is granted but its body has no [result] (missing,
    null or undefined), [login] stops at the read of the token: it hands
    axios the challenge GET only, leaves the client as it was and rejects
    with the engine's TypeError through its catch clause. *)
Theorem login_challenge_without_result (w : world) (d : value) :
  axios (sent w) (challenge_request (this w)) = Response (mkResponse d) ->
  truthy (field d "success") = true ->
  is_nullish (field d "result") = true ->
  login md5 TypeError_message axios w =
    (Throw (caught TypeError_message
              (TypeError_of TypeError_message (field d "result") "token")),
     mkWorld (this w) (sent w ++ [challenge_request (this w)])).
Proof.
  intros Hreply Hs Hr.
  assert (Hd : is_nullish d = false).
  { apply (field_not_nullish d "success"). now apply truthy_not_nullish. }
  pose proof (getChallenge_run w) as G. rewrite Hreply in G. cbn [data] in G.
  rewrite Hd, Hs in G.
  now rewrite (login_after_challenge w _ G), Hd, Hr.
Qed.


End MoreSession.

(** ** Calls in sequence *)

Section Sequences.

Variable md5 : string -> string.
Variable TypeError_message : value -> string -> string.
Variable axios : list request -> request -> reply.

Ltac frame_none :=
  split; [repeat split|split; [exists []; rewrite app_nil_r; repeat split; auto|]];
  reflexivity.

Ltac frame_one :=
  split; [repeat split|split; [eexists [_]; repeat split; auto|]];
  reflexivity.

Ltac frame_two :=
  split; [repeat split|
          split; [eexists [_; _]; rewrite <- ?app_assoc; repeat split; auto|]];
  reflexivity.

Lemma login_framed (w : world) :
  framed Login w (fst (login md5 TypeError_message axios w))
         (snd (login md5 TypeError_message axios w)).
Proof.
  rewrite (login_after_challenge md5 TypeError_message axios w _
             (getChallenge_run TypeError_message axios w)).
  unfold framed, login_request.
  destruct (axios (sent w) (challenge_request (this w))) as [r|e];
    [|frame_one].
  destruct (is_nullish (data r)) eqn:N; [frame_one|].
  destruct (truthy (field (data r) "success")); [|frame_one].
  cbv iota beta. rewrite N.
  destruct (is_nullish (field (data r) "result")); [frame_one|].
  cbn [sent].
  match goal with
  | |- context [axios ?h ?q] => destruct (axios h q) as [r2|e2]
  end; [|frame_two].
  destruct (is_nullish (data r2)); [frame_two|].
  destruct (is_nullish (field (data r2) "result")); frame_two.
Qed.

Lemma logout_run (w : world) :
  let r := POST (webserviceUrl (this w))
                [("operation", "logout");
                 ("sessionName", ToString (sessionId (this w)))]
                form_config in
  logout axios w = (settle (axios (sent w) r), mkWorld (this w) (sent w ++ [r])).
Proof.
  intros r. run_method. subst r.
  match goal with
  | |- context [axios ?h ?q] => destruct (axios h q)
  end; reflexivity.
Qed.

Lemma request_of_target (self : VtigerApiClient) (c : call) :
  target_of (request_of self c) = webserviceUrl self.
Proof. destruct c; reflexivity. Qed.

Ltac frame_shared :=
  unfold framed, create_user, update_user, create_at, update_at, try_catch,
    bind, read, axios_post, send, await, write_user, Promise_resolve,
    Promise_reject, Get, Put, ret, throw, append, URLSearchParams;
  cbn [this sent];
  match goal with
  | |- context [user (this ?w)] => destruct (user (this w))
  end;
  cbn -[getModuleId getModuleName JSON_stringify String.append js_or];
  try match goal with
      | |- context [axios ?h ?q] => destruct (axios h q)
      end;
  cbn -[getModuleId getModuleName JSON_stringify String.append js_or];
  (split; [repeat split|
           split; [first [ exists []; rewrite app_nil_r; repeat split; auto; fail
                         | eexists [_]; repeat split; auto ]
                  |split; reflexivity]]).

Lemma invoke_framed (m : method) (w : world) :
  framed m w (fst (invoke md5 TypeError_message axios m w))
         (snd (invoke md5 TypeError_message axios m w)).
Proof.
  destruct m as [| |module data0|module n data0|c|module|module n];
    cbn [invoke]; [| | | | |frame_shared|frame_shared].
  - apply login_framed.
  - rewrite logout_run. unfold framed. frame_one.
  - destruct data0;
      try (unfold framed; frame_none);
      [|change (create TypeError_message axios module (VObj props) w)
          with (dispatch TypeError_message axios (Create module props) w);
        rewrite (dispatch_run TypeError_message axios (Create module props) w);
        unfold framed; split; [repeat split|
          split; [eexists [_]; repeat split; auto using request_of_target|]];
        reflexivity].
    run_method. unfold framed.
    match goal with
    | |- context [axios ?h ?q] => destruct (axios h q)
    end; frame_one.
  - destruct data0;
      try (unfold framed; frame_none);
      [|change (update TypeError_message axios module n (VObj props) w)
          with (dispatch TypeError_message axios (Update module n props) w);
        rewrite (dispatch_run TypeError_message axios (Update module n props) w);
        unfold framed; split; [repeat split|
          split; [eexists [_]; repeat split; auto using request_of_target|]];
        reflexivity].
    run_method. unfold framed.
    match goal with
    | |- context [axios ?h ?q] => destruct (axios h q)
    end; frame_one.
  - rewrite dispatch_run. unfold framed.
    split; [repeat split|
      split; [eexists [_]; repeat split; auto using request_of_target|]].
    destruct (settle _); reflexivity.
Qed.

Lemma run_framed (ms : list method) (w : world) :
  same_config (this (run md5 TypeError_message axios ms w)) (this w) /\
  exists new,
    sent (run md5 TypeError_message axios ms w) = (sent w ++ new)%list /\
    length new <= 2 * length ms /\
    Forall (fun r => target_of r = webserviceUrl (this w)) new.
Proof.
  revert w. induction ms as [|m rest IH]; intros w; cbn [run].
  - split; [repeat split|]. exists []. rewrite app_nil_r. repeat split; auto.
  - destruct (invoke_framed m w) as [Hc [[new1 [Hs1 [Hl1 Ht1]]] _]].
    destruct (IH (snd (invoke md5 TypeError_message axios m w)))
      as [Hc2 [new2 [Hs2 [Hl2 Ht2]]]].
    destruct Hc as (C1 & C2 & C3 & C4). destruct Hc2 as (D1 & D2 & D3 & D4).
    split; [repeat split; congruence|].
    exists (new1 ++ new2)%list. split; [|split].
    + rewrite Hs2, Hs1, app_assoc. reflexivity.
    + rewrite length_app. cbn [length]. lia.
    + apply Forall_app. split; [assumption|]. now rewrite C4 in Ht2.
Qed.

(** A client made by the constructor talks to one endpoint only: after
    any sequence of calls of its public methods, whatever they were given
    and however they ended, every request it handed to axios went to
    "{url}/webservice.php", there are at most two requests per call, and
    url, username, accessKey and webserviceUrl are as the constructor set
    them. *)
Theorem client_talks_to_one_endpoint
        (url0 username0 accessKey0 : string) (ms : list method) :
  let w' := run md5 TypeError_message axios ms
                (mkWorld (constructor url0 username0 accessKey0) []) in
  Forall (fun r => target_of r = url0 ++ "/webservice.php") (sent w') /\
  length (sent w') <= 2 * length ms /\
  url (this w') = url0 /\ username (this w') = username0 /\
  accessKey (this w') = accessKey0 /\
  webserviceUrl (this w') = url0 ++ "/webservice.php".
Proof.
  intros w'.
  destruct (run_framed ms (mkWorld (constructor url0 username0 accessKey0) []))
    as [(C1 & C2 & C3 & C4) [new [Hs [Hl Ht]]]].
  fold w' in C1, C2, C3, C4, Hs. cbn in Hs, Ht, C1, C2, C3, C4.
  rewrite Hs. repeat split; assumption.
Qed.

Lemma request_of_reads (a b : VtigerApiClient) (c : call) :
  webserviceUrl a = webserviceUrl b -> sessionId a = sessionId b ->
  userId a = userId b -> request_of a c = request_of b c.
Proof.
  destruct a, b. cbn. intros -> -> ->. destruct c; reflexivity.
Qed.

Lemma run_keeps_session (ms : list method) (w : world) :
  forallb (fun m => negb (is_login m)) ms = true ->
  sessionId (this (run md5 TypeError_message axios ms w)) = sessionId (this w) /\
  userId (this (run md5 TypeError_message axios ms w)) = userId (this w) /\
  (forallb (fun m => negb (shares_user m)) ms = true ->
   this (run md5 TypeError_message axios ms w) = this w).
Proof.
  revert w. induction ms as [|m rest IH]; intros w H; cbn [run].
  - auto.
  - cbn [forallb] in H. apply andb_prop in H as [Hm Hrest].
    destruct (IH (snd (invoke md5 TypeError_message axios m w)) Hrest)
      as (I1 & I2 & I3).
    destruct (invoke_framed m w) as [_ [_ Hw]].
    destruct m; try discriminate; cbn [forallb shares_user negb andb];
      first [ rewrite I1, I2, Hw; repeat split; try reflexivity;
              intros Hs; now rewrite (I3 Hs), Hw
            | destruct Hw as [H1 H2];
              rewrite I1, I2, H1, H2; repeat split; intros; discriminate ].
Qed.

(** Only [login] writes the session: a sequence of calls without [login]
    (logout, every dispatcher operation, create and update with any data,
    and create and update on the client's own [user] object) leaves
    sessionId, userId and the configuration as they were, so every later
    dispatcher call builds the request it would have built before, with
    the stale token after a logout for one.  The [user] object is as it
    was too unless the sequence hands it to [create] or [update], which
    store into it. *)
Theorem only_login_writes_the_session (ms : list method) (w : world) :
  forallb (fun m => negb (is_login m)) ms = true ->
  let w' := run md5 TypeError_message axios ms w in
  sessionId (this w') = sessionId (this w) /\
  userId (this w') = userId (this w) /\
  same_config (this w') (this w) /\
  (forall c, request_of (this w') c = request_of (this w) c) /\
  (forallb (fun m => negb (shares_user m)) ms = true -> this w' = this w).
Proof.
  intros H w'. destruct (run_keeps_session ms w H) as (H1 & H2 & H3).
  destruct (run_framed ms w) as [Hc _]. fold w' in H1, H2, H3, Hc.
  repeat split; try assumption; try apply Hc.
  intros c. apply request_of_reads; try assumption. apply Hc.
Qed.

(** After a [login] that resolved with body [v], every dispatcher call
    carries the session token of that body ([v.result.sessionName], as a
    value in a GET, as a string in a POST), and [create] defaults
    [assigned_user_id] to [v.result.userId]. *)
Theorem call_after_login_carries_new_session
        (w w' : world) (v : value) (c : call) :
  login md5 TypeError_message axios w = (Normal v, w') ->
  let r := request_of (logged_in_as (this w) v) c in
  dispatch TypeError_message axios c w' =
    (settle (axios (sent w') r), mkWorld (this w') (sent w' ++ [r])) /\
  match r with
  | GET _ params =>
      lookup "sessionName" params = Some (field (field v "result") "sessionName")
  | POST _ body _ =>
      lookup "sessionName" body =
        Some (ToString (field (field v "result") "sessionName"))
  end /\
  (forall m fields,
      c = Create m fields ->
      truthy (field (VObj fields) "assigned_user_id") = false ->
      posted_element r =
        Some (ToString
                (JSON_stringify
                   (VObj (assign "assigned_user_id"
                                 (field (field v "result") "userId") fields))))).
Proof.
  intros H r.
  pose proof (login_framed w) as [_ [_ Hw]]. rewrite H in Hw. cbn [fst snd] in Hw.
  split; [|split].
  - rewrite dispatch_run, Hw. reflexivity.
  - subst r. destruct c; reflexivity.
  - intros m fields -> Hf. subst r.
    unfold request_of, request_with, with_assignee, js_or. rewrite Hf. reflexivity.
Qed.

(** [login] does not read the session it replaces: two clients with the
    same configuration and the same history of requests, whatever their
    sessionId, userId and user, send the same requests, settle the same
    way and, when the login resolves, end as the same client. *)
Theorem login_ignores_previous_session (w w0 : world) :
  same_config (this w) (this w0) ->
  sent w = sent w0 ->
  fst (login md5 TypeError_message axios w) =
    fst (login md5 TypeError_message axios w0) /\
  sent (snd (login md5 TypeError_message axios w)) =
    sent (snd (login md5 TypeError_message axios w0)) /\
  (forall v, fst (login md5 TypeError_message axios w) = Normal v ->
             this (snd (login md5 TypeError_message axios w)) =
               this (snd (login md5 TypeError_message axios w0))).
Proof.
  destruct w as [[u n k s us ui wu] h], w0 as [[u0 n0 k0 s0 us0 ui0 wu0] h0].
  unfold same_config. cbn. intros (-> & -> & -> & ->) ->.
  rewrite (login_after_challenge md5 TypeError_message axios _ _
             (getChallenge_run TypeError_message axios
                (mkWorld (mkClient u0 n0 k0 s us ui wu0) h0))).
  rewrite (login_after_challenge md5 TypeError_message axios _ _
             (getChallenge_run TypeError_message axios
                (mkWorld (mkClient u0 n0 k0 s0 us0 ui0 wu0) h0))).
  unfold challenge_request, login_request, logged_in_as. cbn [this sent
    url username accessKey webserviceUrl].
  destruct (axios h0 _) as [r|e]; [|repeat split; intros; discriminate].
  destruct (is_nullish (data r)) eqn:N; [repeat split; intros; discriminate|].
  destruct (truthy (field (data r) "success"));
    [|repeat split; intros; discriminate].
  cbv iota beta. rewrite N.
  destruct (is_nullish (field (data r) "result"));
    [repeat split; intros; discriminate|].
  destruct (axios _ _) as [r2|e2]; [|repeat split; intros; discriminate].
  destruct (is_nullish (data r2)); [repeat split; intros; discriminate|].
  destruct (is_nullish (field (data r2) "result"));
    repeat split; intros; discriminate.
Qed.

End Sequences.

(** ** Closed runs of the further properties *)

(** create("leads", null) on a logged-in client. *)
Lemma create_update_reject_primitive_data_witness :
  create v8_message vtiger_stub "leads" VNull logged_in =
    (Throw (ThrownError
              (mkError "TypeError"
                 "Cannot read properties of null (reading 'assigned_user_id')")),
     logged_in).
Proof.
  exact (proj1 (create_update_reject_primitive_data v8_message vtiger_stub
                  "leads" 7 VNull logged_in eq_refl)).
Defined.

(** describe("contacts") and its siblings on a logged-in client. *)
Lemma read_operations_wire_format_witness :
  describe vtiger_stub "contacts" logged_in =
    (Normal accepted,
     mkWorld (this logged_in)
       [GET endpoint [("operation", VStr "describe");
                      ("sessionName", VStr "6c1d07");
                      ("elementType", VStr "Contacts")]]).
Proof.
  exact (proj1 (proj2 (proj2
           (read_operations_wire_format v8_message vtiger_stub logged_in
              "contacts" 4 "Contacts" "SELECT * FROM Leads;" eq_refl)))).
Defined.

Lemma vtiger_stub_stateless : stateless vtiger_stub.
Proof. intros h1 h2 r. reflexivity. Defined.

(** retrieve("contacts", 42) twice. *)
Lemma repeated_call_same_request_witness :
  let r := GET endpoint [("operation", VStr "retrieve");
                         ("sessionName", VStr "6c1d07");
                         ("id", VStr "4x42")] in
  dispatch v8_message vtiger_stub (Retrieve "contacts" 42)
    (snd (dispatch v8_message vtiger_stub (Retrieve "contacts" 42) logged_in)) =
    (Normal accepted, mkWorld (this logged_in) [r; r]).
Proof.
  exact (proj1 (repeated_call_same_request v8_message vtiger_stub
                  (Retrieve "contacts" 42) logged_in vtiger_stub_stateless)).
Defined.

(** No network at the challenge step. *)
Lemma login_challenge_transport_failure_witness :
  login digest_stub v8_message offline_stub fresh =
    (Throw (ThrownValue (VStr "Network Error")),
     mkWorld (this fresh)
       [GET endpoint [("operation", VStr "getchallenge"); ("username", VStr "admin")]]).
Proof.
  exact (proj1 (login_challenge_transport_failure digest_stub v8_message
                  offline_stub fresh _ eq_refl)).
Defined.

(** A challenge body that is just success:true. *)
Lemma login_challenge_without_result_witness :
  login digest_stub v8_message bare_stub fresh =
    (Throw (ThrownValue
              (VStr "Cannot read properties of undefined (reading 'token')")),
     mkWorld (this fresh)
       [GET endpoint [("operation", VStr "getchallenge"); ("username", VStr "admin")]]).
Proof.
  exact (login_challenge_without_result digest_stub v8_message bare_stub fresh
           _ eq_refl eq_refl eq_refl).
Defined.


(** logout, a retrieve, a create with null and an update of the client's
    own user object on a logged-in client: the session token and the user
    id stay, the user object gains the record reference. *)
Lemma only_login_writes_the_session_witness :
  let w' := run digest_stub v8_message vtiger_stub
                [Logout; Operation (Retrieve "contacts" 42);
                 CreateAny "leads" VNull; UpdateUser "users" 1]
                logged_in in
  sessionId (this w') = VStr "6c1d07" /\
  userId (this w') = VStr "19x1".
Proof.
  pose proof (only_login_writes_the_session digest_stub v8_message vtiger_stub
                [Logout; Operation (Retrieve "contacts" 42);
                 CreateAny "leads" VNull; UpdateUser "users" 1]
                logged_in eq_refl) as (H1 & H2 & _).
  split; [exact H1 | exact H2].
Defined.

Example update_of_own_user_stores_the_reference :
  user (this (snd (update_user v8_message vtiger_stub "users" 1 logged_in))) =
    VObj [("sessionName", VStr "6c1d07"); ("userId", VStr "19x1");
          ("version", VStr "0.22"); ("id", VStr "19x1")].
Proof. reflexivity. Qed.

(** login on a fresh client, then delete("leads", 7). *)
Lemma call_after_login_carries_new_session_witness :
  let handshake :=
    [GET endpoint [("operation", VStr "getchallenge"); ("username", VStr "admin")];
     POST endpoint
          [("operation", "login"); ("username", "admin");
           ("accessKey", "md5(5f3a9cs3cr3t)")]
          form_config] in
  dispatch v8_message vtiger_stub (Delete "leads" 7)
           (mkWorld (this logged_in) handshake) =
    (Normal accepted,
     mkWorld (this logged_in)
       (handshake ++
        [POST endpoint
              [("operation", "delete"); ("sessionName", "6c1d07"); ("id", "2x7")]
              form_config])).
Proof.
  exact (proj1 (call_after_login_carries_new_session digest_stub v8_message
                  vtiger_stub fresh
                  (mkWorld (this logged_in)
                     [GET endpoint [("operation", VStr "getchallenge");
                                    ("username", VStr "admin")];
                      POST endpoint
                           [("operation", "login"); ("username", "admin");
                            ("accessKey", "md5(5f3a9cs3cr3t)")]
                           form_config])
                  (VObj [("success", VBool true);
                         ("result", VObj [("sessionName", VStr "6c1d07");
                                          ("userId", VStr "19x1");
                                          ("version", VStr "0.22")])])
                  (Delete "leads" 7) eq_refl)).
Defined.

(** A fresh client and a logged-in one have the same configuration. *)
Lemma login_ignores_previous_session_witness :
  fst (login digest_stub v8_message vtiger_stub fresh) =
    fst (login digest_stub v8_message vtiger_stub logged_in) /\
  sent (snd (login digest_stub v8_message vtiger_stub fresh)) =
    sent (snd (login digest_stub v8_message vtiger_stub logged_in)).
Proof.
  pose proof (login_ignores_previous_session digest_stub v8_message vtiger_stub
                fresh logged_in
                (conj eq_refl (conj eq_refl (conj eq_refl eq_refl))) eq_refl)
    as [H1 [H2 _]].
  split; assumption.
Defined.

(** update("users", 1, c.user) on a logged-in client: the client's user
    object gains the reference 19x1. *)
Lemma update_overrides_id_witness :
  exists posted,
    lookup "id" posted = Some (VStr "19x1") /\
    user (this (snd (update_user v8_message vtiger_stub "users" 1 logged_in))) =
      VObj posted.
Proof.
  destruct (proj2 (update_overrides_id v8_message vtiger_stub "users" 19 "Users" 1
                     [("sessionName", VStr "6c1d07"); ("userId", VStr "19x1");
                      ("version", VStr "0.22")]
                     logged_in eq_refl eq_refl) eq_refl)
    as [posted [[H1 _] H2]].
  exists posted. split; [exact H1 | now rewrite H2].
Defined.
